(** * The NFSd collector of node_exporter (collector/nfsd_linux.go)

    A shallow embedding of the collector's [Update] method and of the six
    emission helpers it calls, together with the properties of the metric
    stream they deliver.

    The collector reads one snapshot of the kernel's NFS server statistics
    and sends one constant metric per exposed counter on a channel.  The
    embedding threads an explicit world through the code: the descriptor
    objects allocated so far (so that descriptor identity is a pointer, as
    in Go), the metrics delivered so far on the channel, and what the
    statistics source currently answers. *)

From Stdlib Require Import ZArith String List Lia.
From Stdlib Require Import Floats.SpecFloat.
From stdpp Require Import base option list strings.

Local Open Scope string_scope.
Local Open Scope list_scope.
Local Open Scope Z_scope.

(** ** Machine values *)

(** Go's [uint64]: an integer in [0, 2^64).  The collector performs no
    arithmetic on the counters, it only converts them. *)
Definition uint64 := Z.

Definition uint64_ok (x : uint64) : Prop := 0 <= x < 2 ^ 64.

(** Go's [float64]: IEEE 754 binary64, 53 bits of precision. *)
Definition float64 := spec_float.

(** The conversion [float64(x)] of an integer: the nearest binary64 value,
    ties to even. *)
Definition float64_of_uint64 (x : uint64) : float64 :=
  binary_normalize 53 1024 x 0 false.

(** The integer a finite binary64 value denotes, when it denotes one. *)
Definition float64_integer (f : float64) : option Z :=
  match f with
  | S754_zero _ => Some 0
  | S754_finite s m e =>
      let v := if s then Z.neg m else Z.pos m in
      if 0 <=? e then Some (v * 2 ^ e)
      else if v mod 2 ^ (- e) =? 0 then Some (v / 2 ^ (- e)) else None
  | _ => None
  end.

(** Go's [error] values are observed through their message. *)
Definition error := string.

(** ** Package nfs: the decoded statistics *)

(** Modelled from the spec: the struct declarations of package nfs are not
    part of the collector's source file.  Section 3 of the specification
    lists the six sub-records and the fields the collector reads; for
    FileHandles it adds that the source format defines further fields that
    are never exposed, which are the remaining entries of the fh line. *)
Module nfs.

Module ReplyCache.
Record t := { Hits : uint64; Misses : uint64; NoCache : uint64 }.
End ReplyCache.

Module FileHandles.
Record t := {
  Stale : uint64;
  TotalLookups : uint64;
  AnonLookups : uint64;
  DirNoCache : uint64;
  NoDirNoCache : uint64
}.
End FileHandles.

Module InputOutput.
Record t := { Read : uint64; Write : uint64 }.
End InputOutput.

Module Threads.
Record t := { Threads : uint64 }.
End Threads.

Module ReadAheadCache.
Record t := { CacheSize : uint64; NotFound : uint64 }.
End ReadAheadCache.

Module Network.
Record t := { UDPCount : uint64; TCPCount : uint64; TCPConnect : uint64 }.
End Network.

Module ServerRPCStats.
Record t := {
  ReplyCache : ReplyCache.t;
  FileHandles : FileHandles.t;
  InputOutput : InputOutput.t;
  Threads : Threads.t;
  ReadAheadCache : ReadAheadCache.t;
  Network : Network.t
}.
End ServerRPCStats.

End nfs.

(** ** Package procfs: the handle on the statistics source *)

Module procfs.
(** The mount point of the proc filesystem. *)
Definition FS := string.
End procfs.

(** ** Package prometheus: descriptors and constant metrics *)

Module prometheus.

Inductive ValueType := CounterValue | GaugeValue | UntypedValue.

(** A descriptor object.  The collector passes [nil] for the constant
    labels of every descriptor. *)
Record Desc := {
  fqName : string;
  help : string;
  constLabels : list (string * string);
  variableLabels : list string
}.

(** [*Desc]: the address of a descriptor object in the world's heap. *)
Definition DescPtr := nat.

(** A constant metric: the descriptor it points to, its type, its value
    and the values given for the descriptor's variable labels. *)
Record Metric := {
  desc : DescPtr;
  valType : ValueType;
  val : float64;
  labelValues : list string
}.

(** Modelled from the spec: prometheus.BuildFQName belongs to the client
    library.  Section 3: names are built by joining the namespace, the
    subsystem and the stat-specific suffix, using _ as separator. *)
Definition BuildFQName (namespace subsystem name : string) : string :=
  namespace +:+ "_" +:+ subsystem +:+ "_" +:+ name.

End prometheus.

Import prometheus.

(** ** The world the collector runs in *)

Record World := {
  (** what reading the statistics source answers, per handle *)
  source : procfs.FS -> nfs.ServerRPCStats.t + error;
  (** the descriptor objects allocated so far, by address *)
  heap : list Desc;
  (** the metrics delivered on the channel so far, oldest first *)
  sent : list Metric
}.

(** A Go call either returns or panics; the world it leaves behind is
    observable in both cases. *)
Inductive outcome (A : Type) : Type :=
| Ret (a : A)
| Panic (msg : string).
Arguments Ret {A} a.
Arguments Panic {A} msg.

Definition M (A : Type) : Type := World -> outcome A * World.

Definition ret {A} (a : A) : M A := fun w => (Ret a, w).

Definition bind {A B} (m : M A) (k : A -> M B) : M B :=
  fun w =>
    match m w with
    | (Ret a, w') => k a w'
    | (Panic msg, w') => (Panic msg, w')
    end.

Definition panic {A} (msg : string) : M A := fun w => (Panic msg, w).

Notation "x <- m ;; k" := (bind m (fun x => k))
  (at level 100, m at next level, right associativity).
Notation "m ;; k" := (bind m (fun _ => k))
  (at level 100, right associativity).

(** [fs.NFSdServerRPCStats()]: one read of the statistics source. *)
Definition NFSdServerRPCStats (fs : procfs.FS)
  : M (nfs.ServerRPCStats.t + error) :=
  fun w => (Ret (source w fs), w).

(** [prometheus.NewDesc]: allocates a fresh descriptor object and returns
    its address. *)
Definition NewDesc (fqName help : string) (variableLabels : list string)
    (constLabels : list (string * string)) : M DescPtr :=
  fun w =>
    (Ret (length (heap w)),
     {| source := source w;
        heap := heap w ++ [Build_Desc fqName help constLabels variableLabels];
        sent := sent w |}).

(** Modelled from the spec: prometheus.NewConstMetric and its panicking
    variant MustNewConstMetric belong to the client library.  The
    constructor fails when the number of label values differs from the
    number of variable labels the descriptor declares; MustNewConstMetric
    panics on that error.  Dereferencing an address that holds no
    descriptor panics as well. *)
Definition NewConstMetric (d : DescPtr) (valueType : ValueType)
    (value : float64) (labelValues : list string) : M (Metric + error) :=
  fun w =>
    match heap w !! d with
    | None => (Panic "invalid memory address or nil pointer dereference", w)
    | Some dsc =>
        if Nat.eqb (length labelValues) (length (variableLabels dsc))
        then (Ret (inl (Build_Metric d valueType value labelValues)), w)
        else (Ret (inr "inconsistent label cardinality"), w)
    end.

Definition MustNewConstMetric (d : DescPtr) (valueType : ValueType)
    (value : float64) (labelValues : list string) : M Metric :=
  r <- NewConstMetric d valueType value labelValues ;;
  match r with
  | inl m => ret m
  | inr err => panic err
  end.

(** [ch <- m]: the channel hands the metric to the consumer, in order. *)
Definition send (m : Metric) : M unit :=
  fun w =>
    (Ret tt,
     {| source := source w; heap := heap w; sent := sent w ++ [m] |}).

(** ** The collector *)

Record nfsdCollector := { fs : procfs.FS }.

Definition nfsdSubsystem : string := "nfsd".

(** In the six helpers and in [Update] the channel [ch] of the source is
    the world's [sent] queue, and a helper receives by value the sub-record
    the source hands over by a pointer it only reads. *)
Section Collector.

(** The constant [namespace] is declared elsewhere in package collector;
    it is externally configured. *)
Variable namespace : string.

(** updateNFSdReplyCacheStats collects statistics for the reply cache. *)
Definition updateNFSdReplyCacheStats (c : nfsdCollector)
    (s : nfs.ReplyCache.t) : M unit :=
  d <- NewDesc
         (BuildFQName namespace nfsdSubsystem "reply_cache_hits_total")
         "NFSd Reply Cache client did not receive a reply and decided to re-transmit its request and the reply was cached. (bad)."
         [] [] ;;
  m <- MustNewConstMetric d CounterValue
         (float64_of_uint64 (nfs.ReplyCache.Hits s)) [] ;;
  send m ;;
  d <- NewDesc
         (BuildFQName namespace nfsdSubsystem "reply_cache_misses_total")
         "NFSd Reply Cache an operation that requires caching (idempotent)."
         [] [] ;;
  m <- MustNewConstMetric d CounterValue
         (float64_of_uint64 (nfs.ReplyCache.Misses s)) [] ;;
  send m ;;
  d <- NewDesc
         (BuildFQName namespace nfsdSubsystem "reply_cache_nocache_total")
         "NFSd Reply Cache non-idempotent operations (rename/delete/…)."
         [] [] ;;
  m <- MustNewConstMetric d CounterValue
         (float64_of_uint64 (nfs.ReplyCache.NoCache s)) [] ;;
  send m.

(** updateNFSdFileHandlesStats collects statistics for the file handles.
    Other FileHandles entries are unused in the kernel. *)
Definition updateNFSdFileHandlesStats (c : nfsdCollector)
    (s : nfs.FileHandles.t) : M unit :=
  d <- NewDesc
         (BuildFQName namespace nfsdSubsystem "file_handles_stale_total")
         "NFSd stale file handles"
         [] [] ;;
  m <- MustNewConstMetric d CounterValue
         (float64_of_uint64 (nfs.FileHandles.Stale s)) [] ;;
  send m.

(** updateNFSdInputOutputStats collects statistics for the bytes in/out. *)
Definition updateNFSdInputOutputStats (c : nfsdCollector)
    (s : nfs.InputOutput.t) : M unit :=
  d <- NewDesc
         (BuildFQName namespace nfsdSubsystem "disk_bytes_read_total")
         "NFSd bytes read"
         [] [] ;;
  m <- MustNewConstMetric d CounterValue
         (float64_of_uint64 (nfs.InputOutput.Read s)) [] ;;
  send m ;;
  d <- NewDesc
         (BuildFQName namespace nfsdSubsystem "disk_bytes_written_total")
         "NFSd bytes written"
         [] [] ;;
  m <- MustNewConstMetric d CounterValue
         (float64_of_uint64 (nfs.InputOutput.Write s)) [] ;;
  send m.

(** updateNFSdThreadsStats collects statistics for kernel server threads. *)
Definition updateNFSdThreadsStats (c : nfsdCollector)
    (s : nfs.Threads.t) : M unit :=
  d <- NewDesc
         (BuildFQName namespace nfsdSubsystem "server_threads")
         "NFSd how many kernel threads are running"
         [] [] ;;
  m <- MustNewConstMetric d GaugeValue
         (float64_of_uint64 (nfs.Threads.Threads s)) [] ;;
  send m.

(** updateNFSdReadAheadCacheStats collects statistics for the read ahead
    cache. *)
Definition updateNFSdReadAheadCacheStats (c : nfsdCollector)
    (s : nfs.ReadAheadCache.t) : M unit :=
  d <- NewDesc
         (BuildFQName namespace nfsdSubsystem "read_ahead_cache_size_blocks")
         "NFSd how large the read ahead cache in blocks"
         [] [] ;;
  m <- MustNewConstMetric d GaugeValue
         (float64_of_uint64 (nfs.ReadAheadCache.CacheSize s)) [] ;;
  send m ;;
  d <- NewDesc
         (BuildFQName namespace nfsdSubsystem
            "read_ahead_cache_not_found_total")
         "NFSd how large the read ahead cache in blocks"
         [] [] ;;
  m <- MustNewConstMetric d CounterValue
         (float64_of_uint64 (nfs.ReadAheadCache.NotFound s)) [] ;;
  send m.

(** updateNFSdNetworkStats collects statistics for network
    packets/connections. *)
Definition updateNFSdNetworkStats (c : nfsdCollector)
    (s : nfs.Network.t) : M unit :=
  packetDesc <- NewDesc
         (BuildFQName namespace nfsdSubsystem "packets_total")
         "NFSd how many network packets have been sent/recieved"
         ["proto"] [] ;;
  m <- MustNewConstMetric packetDesc CounterValue
         (float64_of_uint64 (nfs.Network.UDPCount s)) ["udp"] ;;
  send m ;;
  m <- MustNewConstMetric packetDesc CounterValue
         (float64_of_uint64 (nfs.Network.TCPCount s)) ["tcp"] ;;
  send m ;;
  d <- NewDesc
         (BuildFQName namespace nfsdSubsystem "connections_total")
         "NFSd how many TCP connections have been made"
         [] [] ;;
  m <- MustNewConstMetric d CounterValue
         (float64_of_uint64 (nfs.Network.TCPConnect s)) [] ;;
  send m.

(** Update implements Collector.  The result is the returned [error]:
    [None] is Go's [nil]. *)
Definition Update (c : nfsdCollector) : M (option error) :=
  r <- NFSdServerRPCStats (fs c) ;;
  match r with
  | inr err => ret (Some ("failed to retrieve nfsd stats: " +:+ err))
  | inl stats =>
      updateNFSdReplyCacheStats c (nfs.ServerRPCStats.ReplyCache stats) ;;
      updateNFSdFileHandlesStats c (nfs.ServerRPCStats.FileHandles stats) ;;
      updateNFSdInputOutputStats c (nfs.ServerRPCStats.InputOutput stats) ;;
      updateNFSdThreadsStats c (nfs.ServerRPCStats.Threads stats) ;;
      updateNFSdReadAheadCacheStats c
        (nfs.ServerRPCStats.ReadAheadCache stats) ;;
      updateNFSdNetworkStats c (nfs.ServerRPCStats.Network stats) ;;
      ret None
  end.

End Collector.

Arguments BuildFQName : simpl never.

(** ** What the consumer of the channel observes *)

(** Modelled from the spec: MetricSample, the output unit of section 3: a
    name, a kind, a help text, the label mapping and the value.  The kind is
    the metric's value type; the labels pair the descriptor's variable
    labels with the metric's label values, followed by the constant
    labels. *)
Record MetricSample := {
  sample_name : string;
  sample_kind : ValueType;
  sample_help : string;
  sample_labels : list (string * string);
  sample_value : float64
}.

(** The sample a metric stands for, given the heap its descriptor lives
    in. *)
Definition sample_of (h : list Desc) (m : Metric) : option MetricSample :=
  match h !! desc m with
  | Some d =>
      Some {| sample_name := fqName d;
              sample_kind := valType m;
              sample_help := help d;
              sample_labels :=
                zip (variableLabels d) (labelValues m) ++ constLabels d;
              sample_value := val m |}
  | None => None
  end.

Section Cycle.

Variable namespace : string.

(** One collection cycle: the world [Update] leaves behind, what it
    returns, the metrics it delivered and the samples they stand for. *)
Definition cycle_world (c : nfsdCollector) (w : World) : World :=
  snd (Update namespace c w).

Definition cycle_result (c : nfsdCollector) (w : World)
  : outcome (option error) :=
  fst (Update namespace c w).

Definition cycle_metrics (c : nfsdCollector) (w : World) : list Metric :=
  drop (length (sent w)) (sent (cycle_world c w)).

Definition cycle_samples (c : nfsdCollector) (w : World)
  : option (list MetricSample) :=
  mapM (sample_of (heap (cycle_world c w))) (cycle_metrics c w).

End Cycle.

(** The name, kind and label dimensions of a sample. *)
Definition shape (s : MetricSample) : string * ValueType * list string :=
  (sample_name s, sample_kind s, map fst (sample_labels s)).

(** ** The tables of the specification *)

(** The table of section 4.2, by stat-specific suffix: name, kind, label
    dimensions. *)
Definition spec_table_suffixes : list (string * ValueType * list string) :=
  [ ("reply_cache_hits_total", CounterValue, []);
    ("reply_cache_misses_total", CounterValue, []);
    ("reply_cache_nocache_total", CounterValue, []);
    ("file_handles_stale_total", CounterValue, []);
    ("disk_bytes_read_total", CounterValue, []);
    ("disk_bytes_written_total", CounterValue, []);
    ("server_threads", GaugeValue, []);
    ("read_ahead_cache_size_blocks", GaugeValue, []);
    ("read_ahead_cache_not_found_total", CounterValue, []);
    ("packets_total", CounterValue, ["proto"]);
    ("connections_total", CounterValue, []) ].

Definition qualify (namespace : string)
    (row : string * ValueType * list string)
  : string * ValueType * list string :=
  let '(suffix, kind, dims) := row in
  (BuildFQName namespace nfsdSubsystem suffix, kind, dims).

Definition spec_table (namespace : string)
  : list (string * ValueType * list string) :=
  map (qualify namespace) spec_table_suffixes.

(** The fields of a snapshot, exposed or not. *)
Inductive Field :=
| ReplyCache_Hits | ReplyCache_Misses | ReplyCache_NoCache
| FileHandles_Stale | FileHandles_TotalLookups | FileHandles_AnonLookups
| FileHandles_DirNoCache | FileHandles_NoDirNoCache
| InputOutput_Read | InputOutput_Write
| Threads_Threads
| ReadAheadCache_CacheSize | ReadAheadCache_NotFound
| Network_UDPCount | Network_TCPCount | Network_TCPConnect.

Definition get (f : Field) (s : nfs.ServerRPCStats.t) : uint64 :=
  match f with
  | ReplyCache_Hits => nfs.ReplyCache.Hits (nfs.ServerRPCStats.ReplyCache s)
  | ReplyCache_Misses =>
      nfs.ReplyCache.Misses (nfs.ServerRPCStats.ReplyCache s)
  | ReplyCache_NoCache =>
      nfs.ReplyCache.NoCache (nfs.ServerRPCStats.ReplyCache s)
  | FileHandles_Stale =>
      nfs.FileHandles.Stale (nfs.ServerRPCStats.FileHandles s)
  | FileHandles_TotalLookups =>
      nfs.FileHandles.TotalLookups (nfs.ServerRPCStats.FileHandles s)
  | FileHandles_AnonLookups =>
      nfs.FileHandles.AnonLookups (nfs.ServerRPCStats.FileHandles s)
  | FileHandles_DirNoCache =>
      nfs.FileHandles.DirNoCache (nfs.ServerRPCStats.FileHandles s)
  | FileHandles_NoDirNoCache =>
      nfs.FileHandles.NoDirNoCache (nfs.ServerRPCStats.FileHandles s)
  | InputOutput_Read =>
      nfs.InputOutput.Read (nfs.ServerRPCStats.InputOutput s)
  | InputOutput_Write =>
      nfs.InputOutput.Write (nfs.ServerRPCStats.InputOutput s)
  | Threads_Threads => nfs.Threads.Threads (nfs.ServerRPCStats.Threads s)
  | ReadAheadCache_CacheSize =>
      nfs.ReadAheadCache.CacheSize (nfs.ServerRPCStats.ReadAheadCache s)
  | ReadAheadCache_NotFound =>
      nfs.ReadAheadCache.NotFound (nfs.ServerRPCStats.ReadAheadCache s)
  | Network_UDPCount => nfs.Network.UDPCount (nfs.ServerRPCStats.Network s)
  | Network_TCPCount => nfs.Network.TCPCount (nfs.ServerRPCStats.Network s)
  | Network_TCPConnect =>
      nfs.Network.TCPConnect (nfs.ServerRPCStats.Network s)
  end.

(** The sample the specification binds to a field (sections 3 and 4.2): its
    stat-specific suffix and its labels; none for the unexposed fields. *)
Definition bound_sample (f : Field)
  : option (string * list (string * string)) :=
  match f with
  | ReplyCache_Hits => Some ("reply_cache_hits_total", [])
  | ReplyCache_Misses => Some ("reply_cache_misses_total", [])
  | ReplyCache_NoCache => Some ("reply_cache_nocache_total", [])
  | FileHandles_Stale => Some ("file_handles_stale_total", [])
  | InputOutput_Read => Some ("disk_bytes_read_total", [])
  | InputOutput_Write => Some ("disk_bytes_written_total", [])
  | Threads_Threads => Some ("server_threads", [])
  | ReadAheadCache_CacheSize => Some ("read_ahead_cache_size_blocks", [])
  | ReadAheadCache_NotFound =>
      Some ("read_ahead_cache_not_found_total", [])
  | Network_UDPCount => Some ("packets_total", [("proto", "udp")])
  | Network_TCPCount => Some ("packets_total", [("proto", "tcp")])
  | Network_TCPConnect => Some ("connections_total", [])
  | _ => None
  end.

(** Two snapshots that differ at most in the field [f]. *)
Definition agree_except (f : Field) (s1 s2 : nfs.ServerRPCStats.t) : Prop :=
  forall g, g <> f -> get g s1 = get g s2.

(** [x] is the sample bound to [f]. *)
Definition is_bound_to (namespace : string) (f : Field) (x : MetricSample)
  : Prop :=
  exists suffix,
    bound_sample f = Some (suffix, sample_labels x) /\
    sample_name x = BuildFQName namespace nfsdSubsystem suffix.

(** ** The effect of one cycle, in closed form *)

(** The descriptors one successful cycle allocates, in allocation order. *)
Definition cycle_descs (namespace : string) : list Desc :=
  let d suffix help labels :=
    Build_Desc (BuildFQName namespace nfsdSubsystem suffix) help [] labels in
  [ d "reply_cache_hits_total"
      "NFSd Reply Cache client did not receive a reply and decided to re-transmit its request and the reply was cached. (bad)."
      [];
    d "reply_cache_misses_total"
      "NFSd Reply Cache an operation that requires caching (idempotent)." [];
    d "reply_cache_nocache_total"
      "NFSd Reply Cache non-idempotent operations (rename/delete/…)." [];
    d "file_handles_stale_total" "NFSd stale file handles" [];
    d "disk_bytes_read_total" "NFSd bytes read" [];
    d "disk_bytes_written_total" "NFSd bytes written" [];
    d "server_threads" "NFSd how many kernel threads are running" [];
    d "read_ahead_cache_size_blocks"
      "NFSd how large the read ahead cache in blocks" [];
    d "read_ahead_cache_not_found_total"
      "NFSd how large the read ahead cache in blocks" [];
    d "packets_total"
      "NFSd how many network packets have been sent/recieved" ["proto"];
    d "connections_total" "NFSd how many TCP connections have been made" []
  ].

(** The metrics one successful cycle sends, in sending order, with
    descriptor addresses relative to the first descriptor of the cycle. *)
Definition relative_metrics (s : nfs.ServerRPCStats.t) : list Metric :=
  let m p kind f labelValues :=
    Build_Metric p kind (float64_of_uint64 (get f s)) labelValues in
  [ m 0%nat CounterValue ReplyCache_Hits [];
    m 1%nat CounterValue ReplyCache_Misses [];
    m 2%nat CounterValue ReplyCache_NoCache [];
    m 3%nat CounterValue FileHandles_Stale [];
    m 4%nat CounterValue InputOutput_Read [];
    m 5%nat CounterValue InputOutput_Write [];
    m 6%nat GaugeValue Threads_Threads [];
    m 7%nat GaugeValue ReadAheadCache_CacheSize [];
    m 8%nat CounterValue ReadAheadCache_NotFound [];
    m 9%nat CounterValue Network_UDPCount ["udp"];
    m 9%nat CounterValue Network_TCPCount ["tcp"];
    m 10%nat CounterValue Network_TCPConnect [] ].

(** Moving a metric's descriptor address by [base]. *)
Definition rebase (base : nat) (m : Metric) : Metric :=
  Build_Metric (desc m + base)%nat (valType m) (val m) (labelValues m).

(** ** Concrete inputs *)

(** The end-to-end example of the specification, section 8. *)
Definition example_stats : nfs.ServerRPCStats.t :=
  {| nfs.ServerRPCStats.ReplyCache :=
       {| nfs.ReplyCache.Hits := 10;
          nfs.ReplyCache.Misses := 2;
          nfs.ReplyCache.NoCache := 1 |};
     nfs.ServerRPCStats.FileHandles :=
       {| nfs.FileHandles.Stale := 0;
          nfs.FileHandles.TotalLookups := 0;
          nfs.FileHandles.AnonLookups := 0;
          nfs.FileHandles.DirNoCache := 0;
          nfs.FileHandles.NoDirNoCache := 0 |};
     nfs.ServerRPCStats.InputOutput :=
       {| nfs.InputOutput.Read := 1000; nfs.InputOutput.Write := 500 |};
     nfs.ServerRPCStats.Threads := {| nfs.Threads.Threads := 8 |};
     nfs.ServerRPCStats.ReadAheadCache :=
       {| nfs.ReadAheadCache.CacheSize := 32;
          nfs.ReadAheadCache.NotFound := 3 |};
     nfs.ServerRPCStats.Network :=
       {| nfs.Network.UDPCount := 100;
          nfs.Network.TCPCount := 50;
          nfs.Network.TCPConnect := 7 |} |}.

Definition example_collector : nfsdCollector := {| fs := "/proc" |}.

(** A world whose statistics source answers the given snapshot, with
    nothing allocated and nothing delivered yet. *)
Definition world_with (stats : nfs.ServerRPCStats.t) : World :=
  {| source := fun _ => inl stats; heap := []; sent := [] |}.

Definition example_world : World := world_with example_stats.

(** A world whose statistics source cannot be read; two metrics of an
    earlier cycle are still on record. *)
Definition broken_world : World :=
  {| source := fun _ => inr "open /proc/net/rpc/nfsd: no such file or directory";
     heap := [Build_Desc "node_nfsd_server_threads"
                "NFSd how many kernel threads are running" [] []];
     sent := [Build_Metric 0%nat GaugeValue (float64_of_uint64 8) []] |}.

(** The example snapshot with another value of one field. *)
Definition with_threads (n : uint64) (s : nfs.ServerRPCStats.t)
  : nfs.ServerRPCStats.t :=
  {| nfs.ServerRPCStats.ReplyCache := nfs.ServerRPCStats.ReplyCache s;
     nfs.ServerRPCStats.FileHandles := nfs.ServerRPCStats.FileHandles s;
     nfs.ServerRPCStats.InputOutput := nfs.ServerRPCStats.InputOutput s;
     nfs.ServerRPCStats.Threads := {| nfs.Threads.Threads := n |};
     nfs.ServerRPCStats.ReadAheadCache :=
       nfs.ServerRPCStats.ReadAheadCache s;
     nfs.ServerRPCStats.Network := nfs.ServerRPCStats.Network s |}.

Definition with_hits (n : uint64) (s : nfs.ServerRPCStats.t)
  : nfs.ServerRPCStats.t :=
  {| nfs.ServerRPCStats.ReplyCache :=
       {| nfs.ReplyCache.Hits := n;
          nfs.ReplyCache.Misses :=
            nfs.ReplyCache.Misses (nfs.ServerRPCStats.ReplyCache s);
          nfs.ReplyCache.NoCache :=
            nfs.ReplyCache.NoCache (nfs.ServerRPCStats.ReplyCache s) |};
     nfs.ServerRPCStats.FileHandles := nfs.ServerRPCStats.FileHandles s;
     nfs.ServerRPCStats.InputOutput := nfs.ServerRPCStats.InputOutput s;
     nfs.ServerRPCStats.Threads := nfs.ServerRPCStats.Threads s;
     nfs.ServerRPCStats.ReadAheadCache :=
       nfs.ServerRPCStats.ReadAheadCache s;
     nfs.ServerRPCStats.Network := nfs.ServerRPCStats.Network s |}.

Definition with_file_handles (fh : nfs.FileHandles.t)
    (s : nfs.ServerRPCStats.t) : nfs.ServerRPCStats.t :=
  {| nfs.ServerRPCStats.ReplyCache := nfs.ServerRPCStats.ReplyCache s;
     nfs.ServerRPCStats.FileHandles := fh;
     nfs.ServerRPCStats.InputOutput := nfs.ServerRPCStats.InputOutput s;
     nfs.ServerRPCStats.Threads := nfs.ServerRPCStats.Threads s;
     nfs.ServerRPCStats.ReadAheadCache :=
       nfs.ServerRPCStats.ReadAheadCache s;
     nfs.ServerRPCStats.Network := nfs.ServerRPCStats.Network s |}.

(** ** Construction of the collector *)

Section Construction.

(** The flag [procPath] is declared elsewhere in package collector, and
    [procfs.NewFS] belongs to the procfs library and inspects the file
    system: both are parameters here. *)
Variable procPath : string.
Variable NewFS : string -> procfs.FS + error.

(** NewNFSdCollector returns a new Collector exposing /proc/net/rpc/nfsd
    statistics. *)
Definition NewNFSdCollector : nfsdCollector + error :=
  match NewFS procPath with
  | inr err => inr ("failed to open procfs: " +:+ err)
  | inl fs0 => inl {| fs := fs0 |}
  end.

End Construction.

(** ** Observations on a single helper and on whole worlds *)

(** The metrics a piece of collector code delivers when run from [w], and
    the samples they stand for. *)
Definition run_metrics (m : M unit) (w : World) : list Metric :=
  drop (length (sent w)) (sent (snd (m w))).

Definition run_samples (m : M unit) (w : World)
  : option (list MetricSample) :=
  mapM (sample_of (heap (snd (m w)))) (run_metrics m w).



(** [has_suffix suffix s]: some tail of [s] is [suffix]. *)
Fixpoint has_suffix (suffix s : string) : bool :=
  String.eqb s suffix ||
  match s with
  | EmptyString => false
  | String _ s' => has_suffix suffix s'
  end.

(** A binary64 value that is a number, not below zero: neither NaN nor an
    infinity nor negative. *)
Definition float64_finite_nonneg (f : float64) : bool :=
  match f with
  | S754_zero false => true
  | S754_finite false _ e => e <=? 1024 - 53
  | _ => false
  end.

(** The integer nearest to [x] among those with at most 53 significant
    bits, ties to the even mantissa. *)
Definition round53 (x : Z) : Z :=
  let n := Z.max 0 (Zdigits2 x - 53) in
  let q := x / 2 ^ n in
  let rem := x mod 2 ^ n in
  let up := (2 ^ n <? 2 * rem) || ((2 * rem =? 2 ^ n) && Z.odd q) in
  (if up then q + 1 else q) * 2 ^ n.

(** [mrs] is [m0] shifted right by [k] bits: the bits shifted out are
    summarised by the round and sticky flags. *)
Definition shifted (m0 k : Z) (mrs : shr_record) : Prop :=
  0 <= shr_m mrs /\
  exists rem,
    m0 = shr_m mrs * 2 ^ k + rem /\
    0 <= rem < 2 ^ k /\
    match shr_r mrs, shr_s mrs with
    | false, false => rem = 0
    | false, true => 0 < 2 * rem < 2 ^ k
    | true, false => 2 * rem = 2 ^ k
    | true, true => 2 ^ k < 2 * rem
    end.

(** All the fields of a snapshot are values of Go's uint64. *)
Definition stats_ok (s : nfs.ServerRPCStats.t) : Prop :=
  forall f, uint64_ok (get f s).

(** A world of an earlier cycle: one descriptor, one metric on record. *)
Definition used_world (stats : nfs.ServerRPCStats.t) : World :=
  {| source := fun _ => inl stats;
     heap := [Build_Desc "node_nfsd_server_threads"
                "NFSd how many kernel threads are running" [] []];
     sent := [Build_Metric 0%nat GaugeValue (float64_of_uint64 8) []] |}.

(** ** Helper lemmas *)

#[local] Instance ValueType_eq_dec : EqDecision ValueType.
Proof. solve_decision. Defined.

Lemma string_app_inv_head (p a b : string) : p +:+ a = p +:+ b -> a = b.
Proof.
  induction p as [|ch p IH]; simpl; intros H; [exact H|].
  injection H as H. auto.
Qed.

Lemma BuildFQName_inj (ns sub a b : string) :
  BuildFQName ns sub a = BuildFQName ns sub b -> a = b.
Proof.
  unfold BuildFQName. intros H.
  repeat (apply string_app_inv_head in H). exact H.
Qed.

Lemma lookup_heap_offset (h l : list Desc) (i : nat) :
  (h ++ l) !! (i + length h)%nat = l !! i.
Proof.
  rewrite lookup_app_r by lia. f_equal. lia.
Qed.

Lemma sample_of_rebase (h l : list Desc) (m : Metric) :
  sample_of (h ++ l) (rebase (length h) m) = sample_of l m.
Proof.
  unfold sample_of, rebase. simpl. rewrite lookup_heap_offset. reflexivity.
Qed.

Lemma mapM_sample_of_rebase (h l : list Desc) (ms : list Metric) :
  mapM (sample_of (h ++ l)) (map (rebase (length h)) ms)
  = mapM (sample_of l) ms.
Proof.
  induction ms as [|m ms IH]; simpl; [reflexivity|].
  rewrite sample_of_rebase, IH. reflexivity.
Qed.

(** *** The conversion to float64 is exact up to 2^53 *)

Lemma digits2_pos_bounds (m : positive) :
  2 ^ (Z.pos (digits2_pos m) - 1) <= Z.pos m < 2 ^ Z.pos (digits2_pos m).
Proof.
  induction m as [p IH|p IH|]; simpl digits2_pos.
  - rewrite Pos2Z.inj_succ.
    replace (Z.succ (Z.pos (digits2_pos p)) - 1)
      with (Z.succ (Z.pos (digits2_pos p) - 1)) by lia.
    rewrite !Z.pow_succ_r by lia. lia.
  - rewrite Pos2Z.inj_succ.
    replace (Z.succ (Z.pos (digits2_pos p)) - 1)
      with (Z.succ (Z.pos (digits2_pos p) - 1)) by lia.
    rewrite !Z.pow_succ_r by lia. lia.
  - simpl. lia.
Qed.

Lemma iter_xO_value (m k : positive) :
  Z.pos (Pos.iter xO m k) = Z.pos m * 2 ^ Z.pos k.
Proof.
  induction k as [|k IH] using Pos.peano_ind.
  - simpl. lia.
  - rewrite Pos.iter_succ, Pos2Z.inj_xO, IH, Pos2Z.inj_succ, Z.pow_succ_r
      by lia.
    lia.
Qed.

Lemma iter_xO_digits (m k : positive) :
  digits2_pos (Pos.iter xO m k) = (digits2_pos m + k)%positive.
Proof.
  induction k as [|k IH] using Pos.peano_ind.
  - simpl. lia.
  - rewrite Pos.iter_succ. simpl. rewrite IH. lia.
Qed.

(** A mantissa of exactly 53 bits needs no rounding. *)
Lemma binary_round_aux_canonical (mz : positive) (ez : Z) :
  Z.pos (digits2_pos mz) = 53 -> -1074 <= ez <= 971 ->
  binary_round_aux 53 1024 false (Z.pos mz) ez loc_Exact
  = S754_finite false mz ez.
Proof.
  intros Hd He.
  assert (Hshift : fexp 53 1024 (Z.pos (digits2_pos mz) + ez) - ez = 0).
  { rewrite Hd. unfold fexp, emin. lia. }
  unfold binary_round_aux, shr_fexp. simpl Zdigits2.
  rewrite Hshift.
  cbn [shr shr_record_of_loc loc_of_shr_record shr_m shr_r shr_s
         round_nearest_even Zdigits2].
  rewrite Hshift.
  cbn [shr shr_record_of_loc shr_m].
  destruct (Z.leb_spec ez (1024 - 53)); [reflexivity|lia].
Qed.

Lemma float64_of_uint64_exact (x : uint64) :
  0 <= x <= 2 ^ 53 -> float64_integer (float64_of_uint64 x) = Some x.
Proof.
  intros Hx.
  destruct (Z.eq_dec x (2 ^ 53)) as [->|Hne]; [vm_compute; reflexivity|].
  destruct x as [|m|m]; [reflexivity| |lia].
  unfold float64_of_uint64, binary_normalize, binary_round.
  pose proof (digits2_pos_bounds m) as Hd.
  assert (Hd53 : Z.pos (digits2_pos m) <= 53).
  { destruct (Z_le_gt_dec (Z.pos (digits2_pos m)) 53) as [|Hgt];
      [assumption|].
    assert (2 ^ 53 <= 2 ^ (Z.pos (digits2_pos m) - 1))
      by (apply Z.pow_le_mono_r; lia).
    lia. }
  assert (Hfexp : fexp 53 1024 (Z.pos (digits2_pos m) + 0)
                  = Z.pos (digits2_pos m) - 53).
  { unfold fexp, emin. lia. }
  rewrite Hfexp. unfold shl_align.
  destruct (Z.pos (digits2_pos m) - 53 - 0) as [|k|k] eqn:Hk; [|lia|].
  - rewrite binary_round_aux_canonical by lia.
    simpl. f_equal. lia.
  - rewrite binary_round_aux_canonical.
    + unfold float64_integer.
      assert (He : - (Z.pos (digits2_pos m) - 53) = Z.pos k) by lia.
      destruct (Z.leb_spec 0 (Z.pos (digits2_pos m) - 53)); [lia|].
      rewrite He, iter_xO_value.
      rewrite Z.mod_mul, Z.div_mul by lia. reflexivity.
    + rewrite iter_xO_digits, Pos2Z.inj_add. lia.
    + lia.
Qed.

(** Above 2^53 the conversion rounds: the counter 2^53 + 1 becomes the
    sample value 2^53. *)
Example float64_of_uint64_rounds :
  uint64_ok (2 ^ 53 + 1) /\
  float64_integer (float64_of_uint64 (2 ^ 53 + 1)) = Some (2 ^ 53).
Proof. split; [unfold uint64_ok; lia|vm_compute; reflexivity]. Qed.

(** The metric constructor does check the number of label values: a
    descriptor with one variable label and no value for it panics. *)
Example MustNewConstMetric_panics_on_arity (w : World) :
  fst ((d <- NewDesc "packets_total" "help" ["proto"] [] ;;
        MustNewConstMetric d CounterValue (float64_of_uint64 1) []) w)
  = Panic "inconsistent label cardinality".
Proof.
  unfold bind, NewDesc, MustNewConstMetric, NewConstMetric, bind, panic.
  simpl. rewrite list_lookup_middle by reflexivity. reflexivity.
Qed.

#[local] Instance Field_eq_dec : EqDecision Field.
Proof. solve_decision. Defined.

Section Run.

Variable namespace : string.

Local Ltac run_emissions :=
  unfold bind, NewDesc, MustNewConstMetric, NewConstMetric, send, ret,
    panic, bind; simpl;
  repeat (rewrite list_lookup_middle by reflexivity; simpl);
  repeat rewrite <- app_assoc; simpl;
  repeat (rewrite length_app; simpl).

Lemma Update_run c w stats :
  source w (fs c) = inl stats ->
  Update namespace c w
  = (Ret None,
     {| source := source w;
        heap := heap w ++ cycle_descs namespace;
        sent := sent w ++
                map (rebase (length (heap w))) (relative_metrics stats) |}).
Proof.
  intros Hsrc.
  unfold Update, NFSdServerRPCStats.
  unfold bind at 1. rewrite Hsrc.
  unfold updateNFSdReplyCacheStats, updateNFSdFileHandlesStats,
    updateNFSdInputOutputStats, updateNFSdThreadsStats,
    updateNFSdReadAheadCacheStats, updateNFSdNetworkStats.
  run_emissions.
  unfold cycle_descs, relative_metrics, rebase, get; simpl.
  repeat f_equal; lia.
Qed.

Lemma Update_fail c w err :
  source w (fs c) = inr err ->
  Update namespace c w
  = (Ret (Some ("failed to retrieve nfsd stats: " +:+ err)), w).
Proof.
  intros Hsrc. unfold Update, NFSdServerRPCStats.
  unfold bind at 1. rewrite Hsrc. reflexivity.
Qed.

Lemma cycle_result_run c w stats :
  source w (fs c) = inl stats -> cycle_result namespace c w = Ret None.
Proof.
  intros Hsrc. unfold cycle_result.
  rewrite (Update_run c w stats Hsrc). reflexivity.
Qed.

Lemma cycle_heap_run c w stats :
  source w (fs c) = inl stats ->
  heap (cycle_world namespace c w) = heap w ++ cycle_descs namespace.
Proof.
  intros Hsrc. unfold cycle_world.
  rewrite (Update_run c w stats Hsrc). reflexivity.
Qed.

Lemma cycle_metrics_run c w stats :
  source w (fs c) = inl stats ->
  cycle_metrics namespace c w
  = map (rebase (length (heap w))) (relative_metrics stats).
Proof.
  intros Hsrc. unfold cycle_metrics, cycle_world.
  rewrite (Update_run c w stats Hsrc). simpl.
  apply drop_app_length.
Qed.

Lemma cycle_sent_run c w stats :
  source w (fs c) = inl stats ->
  sent (cycle_world namespace c w) = sent w ++ cycle_metrics namespace c w.
Proof.
  intros Hsrc. rewrite (cycle_metrics_run c w stats Hsrc).
  unfold cycle_world. rewrite (Update_run c w stats Hsrc). reflexivity.
Qed.

Lemma cycle_samples_run c w stats :
  source w (fs c) = inl stats ->
  cycle_samples namespace c w
  = mapM (sample_of (cycle_descs namespace)) (relative_metrics stats).
Proof.
  intros Hsrc. unfold cycle_samples.
  rewrite (cycle_metrics_run c w stats Hsrc),
    (cycle_heap_run c w stats Hsrc).
  apply mapM_sample_of_rebase.
Qed.

End Run.

(** ** The claims *)

Section Claims.

Variable namespace : string.

Local Abbreviation fq := (BuildFQName namespace nfsdSubsystem).

Local Ltac closed_samples Hsrc :=
  rewrite (cycle_samples_run namespace _ _ _ Hsrc);
  eexists; split; [reflexivity|].

Local Ltac filter_by_name :=
  repeat first
    [ rewrite filter_cons_True by reflexivity
    | rewrite filter_cons_False
        by (let H := fresh in
            simpl; intros H; apply BuildFQName_inj in H; discriminate H) ];
  rewrite filter_nil.

Local Ltac filter_by_labels :=
  repeat first
    [ rewrite filter_cons_True by (simpl; discriminate)
    | rewrite filter_cons_False
        by (let H := fresh in simpl; intros H; apply H; reflexivity) ];
  rewrite filter_nil.

Local Ltac bound_to f :=
  exists f; split; [eexists; split; reflexivity|].

Local Ltac bound_field k :=
  first [ bound_to ReplyCache_Hits; solve [k]
        | bound_to ReplyCache_Misses; solve [k]
        | bound_to ReplyCache_NoCache; solve [k]
        | bound_to FileHandles_Stale; solve [k]
        | bound_to InputOutput_Read; solve [k]
        | bound_to InputOutput_Write; solve [k]
        | bound_to Threads_Threads; solve [k]
        | bound_to ReadAheadCache_CacheSize; solve [k]
        | bound_to ReadAheadCache_NotFound; solve [k]
        | bound_to Network_UDPCount; solve [k]
        | bound_to Network_TCPCount; solve [k]
        | bound_to Network_TCPConnect; solve [k] ].

Local Ltac exact_value :=
  split; [reflexivity|apply float64_of_uint64_exact].

Local Ltac same_field :=
  split; [eexists; split; reflexivity|];
  split; [reflexivity|];
  split; [reflexivity|];
  let E := fresh in intros E; simpl in E |- *; rewrite E; reflexivity.

(** Sample by sample, two successful cycles deliver the sample of the same
    field, and the two samples are equal as soon as that field has the same
    value in both snapshots. *)
Lemma samples_field_by_field (s1 s2 : nfs.ServerRPCStats.t) :
  exists ss1 ss2,
    mapM (sample_of (cycle_descs namespace)) (relative_metrics s1) = Some ss1 /\
    mapM (sample_of (cycle_descs namespace)) (relative_metrics s2) = Some ss2 /\
    Forall2 (fun x y =>
               exists g,
                 is_bound_to namespace g x /\
                 is_bound_to namespace g y /\
                 sample_value x = float64_of_uint64 (get g s1) /\
                 sample_value y = float64_of_uint64 (get g s2) /\
                 (get g s1 = get g s2 -> x = y))
            ss1 ss2.
Proof.
  eexists. eexists.
  split; [reflexivity|]. split; [reflexivity|].
  repeat (apply Forall2_cons; split; [bound_field same_field|]).
  apply Forall2_nil_2.
Qed.

(** C1 (amended).  Whenever the snapshot is acquired, [Update] delivers
    exactly 12 samples after the ones already on the channel, and the set
    of their (name, kind, label dimensions) triples is the set of the 11
    rows of the table of section 4.2, whatever the snapshot's values. *)
Theorem Update_emits_spec_table c w stats :
  source w (fs c) = inl stats ->
  exists ss,
    cycle_samples namespace c w = Some ss /\
    sent (cycle_world namespace c w) = sent w ++ cycle_metrics namespace c w /\
    length (cycle_metrics namespace c w) = 12%nat /\
    length ss = 12%nat /\
    (forall row, row ∈ map shape ss <-> row ∈ spec_table namespace) /\
    length (spec_table namespace) = 11%nat /\
    NoDup (spec_table namespace).
Proof.
  intros Hsrc. closed_samples Hsrc.
  split; [exact (cycle_sent_run namespace c w stats Hsrc)|].
  split; [rewrite (cycle_metrics_run namespace c w stats Hsrc); reflexivity|].
  split; [reflexivity|].
  split; [|split; [reflexivity|]].
  - intros row. unfold spec_table. cbn.
    rewrite !elem_of_cons, !elem_of_nil. tauto.
  - unfold spec_table. apply NoDup_fmap_2_strong.
    + intros [[a k] l] [[a' k'] l'] _ _ H. cbn in H.
      injection H as H1 H2 H3. apply BuildFQName_inj in H1. congruence.
    + apply (bool_decide_unpack _). vm_compute. exact I.
Qed.

(** C2 (amended).  Each of the 12 delivered samples carries the float64
    conversion of its own snapshot field and nothing else; a field that is
    at most 2^53 is carried unchanged. *)
Theorem Update_sample_values c w stats :
  source w (fs c) = inl stats ->
  exists ss,
    cycle_samples namespace c w = Some ss /\
    map (fun s => (sample_name s, sample_labels s, sample_value s)) ss
    = [ (fq "reply_cache_hits_total", [],
         float64_of_uint64
           (nfs.ReplyCache.Hits (nfs.ServerRPCStats.ReplyCache stats)));
        (fq "reply_cache_misses_total", [],
         float64_of_uint64
           (nfs.ReplyCache.Misses (nfs.ServerRPCStats.ReplyCache stats)));
        (fq "reply_cache_nocache_total", [],
         float64_of_uint64
           (nfs.ReplyCache.NoCache (nfs.ServerRPCStats.ReplyCache stats)));
        (fq "file_handles_stale_total", [],
         float64_of_uint64
           (nfs.FileHandles.Stale (nfs.ServerRPCStats.FileHandles stats)));
        (fq "disk_bytes_read_total", [],
         float64_of_uint64
           (nfs.InputOutput.Read (nfs.ServerRPCStats.InputOutput stats)));
        (fq "disk_bytes_written_total", [],
         float64_of_uint64
           (nfs.InputOutput.Write (nfs.ServerRPCStats.InputOutput stats)));
        (fq "server_threads", [],
         float64_of_uint64
           (nfs.Threads.Threads (nfs.ServerRPCStats.Threads stats)));
        (fq "read_ahead_cache_size_blocks", [],
         float64_of_uint64
           (nfs.ReadAheadCache.CacheSize
              (nfs.ServerRPCStats.ReadAheadCache stats)));
        (fq "read_ahead_cache_not_found_total", [],
         float64_of_uint64
           (nfs.ReadAheadCache.NotFound
              (nfs.ServerRPCStats.ReadAheadCache stats)));
        (fq "packets_total", [("proto", "udp")],
         float64_of_uint64
           (nfs.Network.UDPCount (nfs.ServerRPCStats.Network stats)));
        (fq "packets_total", [("proto", "tcp")],
         float64_of_uint64
           (nfs.Network.TCPCount (nfs.ServerRPCStats.Network stats)));
        (fq "connections_total", [],
         float64_of_uint64
           (nfs.Network.TCPConnect (nfs.ServerRPCStats.Network stats))) ] /\
    Forall (fun s =>
              exists f,
                is_bound_to namespace f s /\
                sample_value s = float64_of_uint64 (get f stats) /\
                (0 <= get f stats <= 2 ^ 53 ->
                 float64_integer (sample_value s) = Some (get f stats)))
           ss.
Proof.
  intros Hsrc. closed_samples Hsrc.
  split; [reflexivity|].
  repeat (apply Forall_cons; split; [bound_field exact_value|]).
  apply Forall_nil_2.
Qed.

(** C3.  The samples named packets_total are exactly two, first the one
    labelled proto=udp with the UDP count, then the one labelled proto=tcp
    with the TCP count; they are the only samples that carry a label. *)
Theorem packets_total_emitted_twice c w stats :
  source w (fs c) = inl stats ->
  exists ss udp tcp,
    cycle_samples namespace c w = Some ss /\
    filter (fun s => sample_name s = fq "packets_total") ss = [udp; tcp] /\
    filter (fun s => sample_labels s <> []) ss = [udp; tcp] /\
    sample_labels udp = [("proto", "udp")] /\
    sample_value udp
    = float64_of_uint64
        (nfs.Network.UDPCount (nfs.ServerRPCStats.Network stats)) /\
    sample_labels tcp = [("proto", "tcp")] /\
    sample_value tcp
    = float64_of_uint64
        (nfs.Network.TCPCount (nfs.ServerRPCStats.Network stats)).
Proof.
  intros Hsrc. rewrite (cycle_samples_run namespace _ _ _ Hsrc).
  eexists. eexists. eexists.
  split; [reflexivity|].
  split; [filter_by_name; reflexivity|].
  split; [filter_by_labels; reflexivity|].
  repeat split.
Qed.

(** C4.  When the statistics source fails, [Update] returns the error
    "failed to retrieve nfsd stats: ..." built from the acquisition error
    and leaves the world as it found it: nothing is delivered, not even a
    descriptor is allocated.  When the source answers a snapshot, [Update]
    returns nil. *)
Theorem Update_fails_whole_or_succeeds c w :
  match source w (fs c) with
  | inr err =>
      Update namespace c w
      = (Ret (Some ("failed to retrieve nfsd stats: " +:+ err)), w) /\
      cycle_metrics namespace c w = []
  | inl stats => cycle_result namespace c w = Ret None
  end.
Proof.
  destruct (source w (fs c)) as [stats|err] eqn:Hsrc.
  - exact (cycle_result_run namespace c w stats Hsrc).
  - split; [exact (Update_fail namespace c w err Hsrc)|].
    unfold cycle_metrics, cycle_world.
    rewrite (Update_fail namespace c w err Hsrc). simpl.
    apply drop_all.
Qed.

(** C5 (amended).  The 12 samples of a cycle are delivered after the
    samples already on the channel, in the group order of section 4.2:
    reply cache (hits, misses, nocache), file handles (stale), input/output
    (read, written), threads, read-ahead cache (size, not found), network
    (packets udp, packets tcp, connections). *)
Theorem Update_delivery_order c w stats :
  source w (fs c) = inl stats ->
  exists ss,
    cycle_samples namespace c w = Some ss /\
    sent (cycle_world namespace c w)
    = sent w ++ cycle_metrics namespace c w /\
    map (fun s => (sample_name s, sample_labels s)) ss
    = [ (fq "reply_cache_hits_total", []);
        (fq "reply_cache_misses_total", []);
        (fq "reply_cache_nocache_total", []);
        (fq "file_handles_stale_total", []);
        (fq "disk_bytes_read_total", []);
        (fq "disk_bytes_written_total", []);
        (fq "server_threads", []);
        (fq "read_ahead_cache_size_blocks", []);
        (fq "read_ahead_cache_not_found_total", []);
        (fq "packets_total", [("proto", "udp")]);
        (fq "packets_total", [("proto", "tcp")]);
        (fq "connections_total", []) ].
Proof.
  intros Hsrc. closed_samples Hsrc.
  split; [exact (cycle_sent_run namespace c w stats Hsrc)|].
  reflexivity.
Qed.

(** C6.  Each sample's value depends only on the one field it is bound to.
    Two cycles whose snapshots differ at most in one field deliver sample
    sequences that differ at most in the sample bound to that field, and
    not at all when the field is not exposed, as the fields of FileHandles
    other than Stale. *)
Theorem sample_depends_on_its_field_only c1 w1 c2 w2 s1 s2 :
  source w1 (fs c1) = inl s1 ->
  source w2 (fs c2) = inl s2 ->
  exists ss1 ss2,
    cycle_samples namespace c1 w1 = Some ss1 /\
    cycle_samples namespace c2 w2 = Some ss2 /\
    Forall2 (fun x y =>
               exists g,
                 is_bound_to namespace g x /\
                 is_bound_to namespace g y /\
                 sample_value x = float64_of_uint64 (get g s1) /\
                 sample_value y = float64_of_uint64 (get g s2) /\
                 (get g s1 = get g s2 -> x = y))
            ss1 ss2 /\
    (forall f,
        agree_except f s1 s2 ->
        Forall2 (fun x y =>
                   x = y \/
                   (is_bound_to namespace f x /\ is_bound_to namespace f y))
                ss1 ss2 /\
        (bound_sample f = None -> ss1 = ss2)) /\
    (bound_sample FileHandles_TotalLookups = None /\
     bound_sample FileHandles_AnonLookups = None /\
     bound_sample FileHandles_DirNoCache = None /\
     bound_sample FileHandles_NoDirNoCache = None).
Proof.
  intros Hsrc1 Hsrc2.
  rewrite (cycle_samples_run namespace _ _ _ Hsrc1),
    (cycle_samples_run namespace _ _ _ Hsrc2).
  destruct (samples_field_by_field s1 s2) as (ss1 & ss2 & E1 & E2 & Hall).
  exists ss1, ss2.
  split; [exact E1|]. split; [exact E2|]. split; [exact Hall|].
  split; [|repeat split].
  intros f Hagree. split.
  - eapply Forall2_impl; [exact Hall|].
    intros x y (g & Hx & Hy & _ & _ & Hsame).
    destruct (decide (g = f)) as [->|Hne]; [right; split; assumption|].
    left. apply Hsame, Hagree, Hne.
  - intros Hnone. apply list_eq_Forall2.
    eapply Forall2_impl; [exact Hall|].
    intros x y (g & (suffix & Hg & _) & _ & _ & _ & Hsame).
    apply Hsame, Hagree. intros ->. congruence.
Qed.

(** C7.  Two calls of [Update] that acquire snapshots with equal field
    values, from whatever worlds, return the same result and deliver the
    same sequence of samples: names, kinds, help texts, labels and
    values. *)
Theorem Update_deterministic c1 w1 c2 w2 stats :
  source w1 (fs c1) = inl stats ->
  source w2 (fs c2) = inl stats ->
  cycle_result namespace c1 w1 = cycle_result namespace c2 w2 /\
  exists ss,
    cycle_samples namespace c1 w1 = Some ss /\
    cycle_samples namespace c2 w2 = Some ss.
Proof.
  intros Hsrc1 Hsrc2. split.
  - rewrite (cycle_result_run namespace _ _ _ Hsrc1),
      (cycle_result_run namespace _ _ _ Hsrc2). reflexivity.
  - rewrite (cycle_samples_run namespace _ _ _ Hsrc1),
      (cycle_samples_run namespace _ _ _ Hsrc2).
    eexists. split; reflexivity.
Qed.

(** C8.  The two packets_total metrics of a cycle point to one and the
    same descriptor object, allocated in this cycle, whose name is
    packets_total, with its help text and the single variable label proto;
    no other metric of the cycle points to it.  The first carries the
    label value udp and the UDP count, the second tcp and the TCP count. *)
Theorem packets_share_one_descriptor c w stats :
  source w (fs c) = inl stats ->
  exists p m_udp m_tcp,
    (length (heap w) <= p)%nat /\
    heap (cycle_world namespace c w) !! p
    = Some {| fqName := fq "packets_total";
              help := "NFSd how many network packets have been sent/recieved";
              constLabels := [];
              variableLabels := ["proto"] |} /\
    filter (fun m => desc m = p) (cycle_metrics namespace c w)
    = [m_udp; m_tcp] /\
    m_udp = {| desc := p;
               valType := CounterValue;
               val := float64_of_uint64
                        (nfs.Network.UDPCount
                           (nfs.ServerRPCStats.Network stats));
               labelValues := ["udp"] |} /\
    m_tcp = {| desc := p;
               valType := CounterValue;
               val := float64_of_uint64
                        (nfs.Network.TCPCount
                           (nfs.ServerRPCStats.Network stats));
               labelValues := ["tcp"] |}.
Proof.
  intros Hsrc.
  rewrite (cycle_heap_run namespace _ _ _ Hsrc),
    (cycle_metrics_run namespace _ _ _ Hsrc).
  exists (9 + length (heap w))%nat. eexists. eexists.
  split; [lia|].
  split; [rewrite lookup_heap_offset; reflexivity|].
  split; [|split; reflexivity].
  unfold relative_metrics, rebase. cbn [map desc].
  repeat first
    [ rewrite filter_cons_True by (simpl; lia)
    | rewrite filter_cons_False by (simpl; lia) ].
  rewrite filter_nil. reflexivity.
Qed.

(** C9.  No call of [Update] panics, in any world.  Every metric it
    constructs gives as many label values as its descriptor declares
    variable labels: one for the packets_total descriptor, whose label list
    is proto, and none for every other descriptor, which declares none. *)
Theorem Update_never_panics c w :
  (exists r, cycle_result namespace c w = Ret r) /\
  Forall (fun m =>
            exists d,
              heap (cycle_world namespace c w) !! desc m = Some d /\
              length (labelValues m) = length (variableLabels d) /\
              ((fqName d = fq "packets_total" /\
                variableLabels d = ["proto"] /\
                length (labelValues m) = 1%nat) \/
               (fqName d <> fq "packets_total" /\
                variableLabels d = [] /\
                labelValues m = [])))
         (cycle_metrics namespace c w).
Proof.
  destruct (source w (fs c)) as [stats|err] eqn:Hsrc.
  - split.
    + exists None. exact (cycle_result_run namespace c w stats Hsrc).
    + rewrite (cycle_heap_run namespace _ _ _ Hsrc),
        (cycle_metrics_run namespace _ _ _ Hsrc).
      unfold relative_metrics. cbn [map].
      repeat (apply Forall_cons; split;
              [unfold rebase; cbn [desc labelValues];
               rewrite lookup_heap_offset; eexists;
               split; [reflexivity|]; split; [reflexivity|];
               first [ left; repeat split; reflexivity
                     | right; repeat split;
                       let H := fresh in
                       simpl; intros H; apply BuildFQName_inj in H;
                       discriminate H ]|]).
      apply Forall_nil_2.
  - split.
    + unfold cycle_result.
      rewrite (Update_fail namespace c w err Hsrc). eexists. reflexivity.
    + unfold cycle_metrics, cycle_world.
      rewrite (Update_fail namespace c w err Hsrc). simpl.
      rewrite drop_all. apply Forall_nil_2.
Qed.

(** C10.  The sample read_ahead_cache_not_found_total carries the help text
    "NFSd how large the read ahead cache in blocks", the very text of the
    sample read_ahead_cache_size_blocks, whatever the snapshot. *)
Theorem not_found_help_is_size_help c w stats :
  source w (fs c) = inl stats ->
  exists ss not_found size,
    cycle_samples namespace c w = Some ss /\
    filter (fun s => sample_name s = fq "read_ahead_cache_not_found_total") ss
    = [not_found] /\
    filter (fun s => sample_name s = fq "read_ahead_cache_size_blocks") ss
    = [size] /\
    sample_help not_found = "NFSd how large the read ahead cache in blocks" /\
    sample_help not_found = sample_help size.
Proof.
  intros Hsrc. rewrite (cycle_samples_run namespace _ _ _ Hsrc).
  eexists. eexists. eexists.
  split; [reflexivity|].
  split; [filter_by_name; reflexivity|].
  split; [filter_by_name; reflexivity|].
  split; reflexivity.
Qed.

End Claims.


(** ** The claims on concrete inputs *)

(** C1 as written fails: on the example snapshot of section 8 the cycle
    delivers 12 metrics, not 11. *)
Lemma eleven_samples_counterexample :
  source example_world (fs example_collector) = inl example_stats /\
  length (cycle_metrics "node" example_collector example_world) <> 11%nat.
Proof.
  split; [reflexivity|]. vm_compute. intros H. discriminate H.
Qed.

Lemma Update_emits_spec_table_witness :
  source example_world (fs example_collector) = inl example_stats /\
  exists ss,
    cycle_samples "node" example_collector example_world = Some ss /\
    length ss = 12%nat /\
    (forall row, row ∈ map shape ss <-> row ∈ spec_table "node").
Proof.
  split; [reflexivity|].
  destruct (Update_emits_spec_table "node" example_collector example_world
              example_stats eq_refl)
    as (ss & Hss & _ & _ & Hlen & Hset & _).
  exists ss. split; [exact Hss|]. split; [exact Hlen|exact Hset].
Defined.

(** C2 as written fails in its count: the example snapshot yields 12
    sample values, not 11. *)
Lemma eleven_values_counterexample :
  source example_world (fs example_collector) = inl example_stats /\
  exists ss,
    cycle_samples "node" example_collector example_world = Some ss /\
    map (fun s => float64_integer (sample_value s)) ss
    = [Some 10; Some 2; Some 1; Some 0; Some 1000; Some 500; Some 8;
       Some 32; Some 3; Some 100; Some 50; Some 7] /\
    length (map sample_value ss) <> 11%nat.
Proof.
  split; [reflexivity|]. eexists.
  split; [vm_compute; reflexivity|].
  split; [vm_compute; reflexivity|].
  vm_compute. intros H. discriminate H.
Qed.

(** The snapshot with ReplyCache.Hits = 42 yields reply_cache_hits_total =
    42.0. *)
Lemma Update_sample_values_witness :
  source (world_with (with_hits 42 example_stats)) (fs example_collector)
  = inl (with_hits 42 example_stats) /\
  exists ss,
    cycle_samples "node" example_collector
      (world_with (with_hits 42 example_stats)) = Some ss /\
    map (fun s => (sample_name s, sample_labels s, sample_value s)) ss
    = [ ("node_nfsd_reply_cache_hits_total", [],
         S754_finite false (42 * 2 ^ 47) (-47));
        ("node_nfsd_reply_cache_misses_total", [],
         S754_finite false (2 * 2 ^ 51) (-51));
        ("node_nfsd_reply_cache_nocache_total", [],
         S754_finite false (2 ^ 52) (-52));
        ("node_nfsd_file_handles_stale_total", [], S754_zero false);
        ("node_nfsd_disk_bytes_read_total", [],
         S754_finite false (1000 * 2 ^ 43) (-43));
        ("node_nfsd_disk_bytes_written_total", [],
         S754_finite false (500 * 2 ^ 44) (-44));
        ("node_nfsd_server_threads", [],
         S754_finite false (8 * 2 ^ 49) (-49));
        ("node_nfsd_read_ahead_cache_size_blocks", [],
         S754_finite false (32 * 2 ^ 47) (-47));
        ("node_nfsd_read_ahead_cache_not_found_total", [],
         S754_finite false (3 * 2 ^ 51) (-51));
        ("node_nfsd_packets_total", [("proto", "udp")],
         S754_finite false (100 * 2 ^ 46) (-46));
        ("node_nfsd_packets_total", [("proto", "tcp")],
         S754_finite false (50 * 2 ^ 47) (-47));
        ("node_nfsd_connections_total", [],
         S754_finite false (7 * 2 ^ 50) (-50)) ].
Proof.
  split; [reflexivity|].
  destruct (Update_sample_values "node" example_collector
              (world_with (with_hits 42 example_stats))
              (with_hits 42 example_stats) eq_refl)
    as (ss & Hss & Hvalues & _).
  exists ss. split; [exact Hss|exact Hvalues].
Defined.

Lemma packets_total_emitted_twice_witness :
  source example_world (fs example_collector) = inl example_stats /\
  exists ss udp tcp,
    cycle_samples "node" example_collector example_world = Some ss /\
    filter (fun s => sample_name s = "node_nfsd_packets_total") ss
    = [udp; tcp] /\
    sample_labels udp = [("proto", "udp")] /\
    float64_integer (sample_value udp) = Some 100 /\
    sample_labels tcp = [("proto", "tcp")] /\
    float64_integer (sample_value tcp) = Some 50.
Proof.
  split; [reflexivity|].
  destruct (packets_total_emitted_twice "node" example_collector
              example_world example_stats eq_refl)
    as (ss & udp & tcp & Hss & Hname & _ & Hlu & Hvu & Hlt & Hvt).
  exists ss, udp, tcp.
  split; [exact Hss|]. split; [exact Hname|].
  split; [exact Hlu|]. split; [rewrite Hvu; reflexivity|].
  split; [exact Hlt|]. rewrite Hvt. reflexivity.
Defined.

(** C5 as written fails in its count: the delivered sequence has a twelfth
    element, connections_total. *)
Lemma eleven_in_order_counterexample :
  source example_world (fs example_collector) = inl example_stats /\
  exists ss last,
    cycle_samples "node" example_collector example_world = Some ss /\
    ss !! 11%nat = Some last /\
    sample_name last = "node_nfsd_connections_total" /\
    length ss <> 11%nat.
Proof.
  split; [reflexivity|]. eexists. eexists.
  split; [vm_compute; reflexivity|].
  split; [reflexivity|].
  split; [reflexivity|].
  vm_compute. intros H. discriminate H.
Qed.

Lemma Update_delivery_order_witness :
  source example_world (fs example_collector) = inl example_stats /\
  exists ss,
    cycle_samples "node" example_collector example_world = Some ss /\
    map (fun s => (sample_name s, sample_labels s)) ss
    = [ ("node_nfsd_reply_cache_hits_total", []);
        ("node_nfsd_reply_cache_misses_total", []);
        ("node_nfsd_reply_cache_nocache_total", []);
        ("node_nfsd_file_handles_stale_total", []);
        ("node_nfsd_disk_bytes_read_total", []);
        ("node_nfsd_disk_bytes_written_total", []);
        ("node_nfsd_server_threads", []);
        ("node_nfsd_read_ahead_cache_size_blocks", []);
        ("node_nfsd_read_ahead_cache_not_found_total", []);
        ("node_nfsd_packets_total", [("proto", "udp")]);
        ("node_nfsd_packets_total", [("proto", "tcp")]);
        ("node_nfsd_connections_total", []) ].
Proof.
  split; [reflexivity|].
  destruct (Update_delivery_order "node" example_collector example_world
              example_stats eq_refl)
    as (ss & Hss & _ & Horder).
  exists ss. split; [exact Hss|exact Horder].
Defined.

(** Threads.Threads going from 4 to 6 changes at most server_threads. *)
Lemma sample_depends_on_its_field_only_witness :
  exists ss1 ss2,
    cycle_samples "node" example_collector
      (world_with (with_threads 4 example_stats)) = Some ss1 /\
    cycle_samples "node" example_collector
      (world_with (with_threads 6 example_stats)) = Some ss2 /\
    Forall2 (fun x y =>
               x = y \/
               (is_bound_to "node" Threads_Threads x /\
                is_bound_to "node" Threads_Threads y))
            ss1 ss2.
Proof.
  destruct (sample_depends_on_its_field_only "node"
              example_collector (world_with (with_threads 4 example_stats))
              example_collector (world_with (with_threads 6 example_stats))
              (with_threads 4 example_stats) (with_threads 6 example_stats)
              eq_refl eq_refl)
    as (ss1 & ss2 & H1 & H2 & _ & Hone & _).
  exists ss1, ss2. split; [exact H1|]. split; [exact H2|].
  apply (Hone Threads_Threads).
  intros g Hg. destruct g; try reflexivity. contradiction Hg. reflexivity.
Defined.

(** The fields of FileHandles other than Stale show in no sample. *)
Example unexposed_file_handles_fields :
  cycle_samples "node" example_collector
    (world_with
       (with_file_handles
          {| nfs.FileHandles.Stale := 0;
             nfs.FileHandles.TotalLookups := 99;
             nfs.FileHandles.AnonLookups := 5;
             nfs.FileHandles.DirNoCache := 17;
             nfs.FileHandles.NoDirNoCache := 3 |}
          example_stats))
  = cycle_samples "node" example_collector example_world.
Proof. vm_compute. reflexivity. Qed.

(** Two consecutive cycles on an unchanged statistics source. *)
Lemma Update_deterministic_witness :
  source example_world (fs example_collector) = inl example_stats /\
  source (cycle_world "node" example_collector example_world)
    (fs example_collector) = inl example_stats /\
  cycle_samples "node" example_collector
    (cycle_world "node" example_collector example_world)
  = cycle_samples "node" example_collector example_world.
Proof.
  split; [reflexivity|]. split; [reflexivity|].
  destruct (Update_deterministic "node"
              example_collector example_world
              example_collector
              (cycle_world "node" example_collector example_world)
              example_stats eq_refl eq_refl)
    as (_ & ss & H1 & H2).
  rewrite H1, H2. reflexivity.
Defined.

Lemma packets_share_one_descriptor_witness :
  source example_world (fs example_collector) = inl example_stats /\
  exists p m_udp m_tcp,
    filter (fun m => desc m = p)
      (cycle_metrics "node" example_collector example_world)
    = [m_udp; m_tcp] /\
    desc m_udp = p /\ desc m_tcp = p /\
    labelValues m_udp = ["udp"] /\
    float64_integer (val m_udp) = Some 100 /\
    labelValues m_tcp = ["tcp"] /\
    float64_integer (val m_tcp) = Some 50.
Proof.
  split; [reflexivity|].
  destruct (packets_share_one_descriptor "node" example_collector
              example_world example_stats eq_refl)
    as (p & m_udp & m_tcp & _ & _ & Hfilter & Hudp & Htcp).
  exists p, m_udp, m_tcp.
  split; [exact Hfilter|].
  rewrite Hudp, Htcp. repeat split.
Defined.

Lemma not_found_help_is_size_help_witness :
  source example_world (fs example_collector) = inl example_stats /\
  exists ss not_found size,
    cycle_samples "node" example_collector example_world = Some ss /\
    filter (fun s =>
              sample_name s = "node_nfsd_read_ahead_cache_not_found_total")
      ss = [not_found] /\
    filter (fun s => sample_name s = "node_nfsd_read_ahead_cache_size_blocks")
      ss = [size] /\
    sample_help not_found = "NFSd how large the read ahead cache in blocks" /\
    sample_help not_found = sample_help size.
Proof.
  split; [reflexivity|].
  exact (not_found_help_is_size_help "node" example_collector example_world
           example_stats eq_refl).
Defined.

(** A failed acquisition on a channel that already carries a metric: the
    error is returned and the world is untouched. *)
Example Update_on_broken_source :
  Update "node" example_collector broken_world
  = (Ret (Some "failed to retrieve nfsd stats: open /proc/net/rpc/nfsd: no such file or directory"),
     broken_world).
Proof. reflexivity. Qed.

(** ** Further properties of the collector *)





Lemma string_length_app (p x : string) :
  String.length (p +:+ x) = (String.length p + String.length x)%nat.
Proof. induction p as [|ch p IH]; simpl; [reflexivity|]. rewrite IH. reflexivity. Qed.

(** A suffix no longer than [x] is a suffix of [p +:+ x] exactly when it is
    one of [x]. *)
Lemma has_suffix_app (suffix p x : string) :
  (String.length suffix <= String.length x)%nat ->
  has_suffix suffix (p +:+ x) = has_suffix suffix x.
Proof.
  intros Hlen. induction p as [|ch p IH]; [reflexivity|].
  change (has_suffix suffix (String ch p +:+ x))
    with (String.eqb (String ch (p +:+ x)) suffix
          || has_suffix suffix (p +:+ x)).
  rewrite IH.
  destruct (String.eqb_spec (String ch (p +:+ x)) suffix) as [E|_];
    [|reflexivity].
  apply (f_equal String.length) in E. cbn [String.length] in E.
  rewrite string_length_app in E. lia.
Qed.

Lemma has_suffix_BuildFQName (suffix ns sub x : string) :
  (String.length suffix <= String.length x)%nat ->
  has_suffix suffix (BuildFQName ns sub x) = has_suffix suffix x.
Proof.
  intros Hlen. unfold BuildFQName.
  rewrite !has_suffix_app; [reflexivity|assumption|..];
    rewrite ?string_length_app; lia.
Qed.

(** *** The conversion to float64 never leaves the finite numbers *)

Lemma shr_1_bounds (mrs : shr_record) :
  0 <= shr_m mrs -> 0 <= shr_m (shr_1 mrs) <= shr_m mrs.
Proof.
  destruct mrs as [m r s]. simpl.
  destruct m as [|[p|p|]|[p|p|]]; simpl; lia.
Qed.

Lemma iter_shr_1_bounds (p : positive) (mrs : shr_record) :
  0 <= shr_m mrs -> 0 <= shr_m (SpecFloat.iter_pos shr_1 p mrs) <= shr_m mrs.
Proof.
  revert mrs. induction p as [p IH|p IH|]; intros mrs H; simpl.
  - pose proof (shr_1_bounds mrs H) as H1.
    pose proof (IH _ (proj1 H1)) as H2.
    pose proof (IH _ (proj1 H2)) as H3. lia.
  - pose proof (IH _ H) as H2.
    pose proof (IH _ (proj1 H2)) as H3. lia.
  - apply shr_1_bounds, H.
Qed.

Lemma shr_bounds (mrs : shr_record) (e n : Z) :
  0 <= shr_m mrs ->
  0 <= shr_m (fst (shr mrs e n)) <= shr_m mrs /\
  e <= snd (shr mrs e n) <= Z.max e (e + n).
Proof.
  intros H. unfold shr. destruct n as [|p|p]; simpl; try lia.
  split; [apply iter_shr_1_bounds, H|lia].
Qed.

Lemma Zdigits2_bound (z k : Z) : 0 <= k -> 0 <= z < 2 ^ k -> Zdigits2 z <= k.
Proof.
  intros Hk Hz. destruct z as [|p|p]; simpl; [lia| |lia].
  pose proof (digits2_pos_bounds p) as Hd.
  destruct (Z_le_gt_dec (Z.pos (digits2_pos p)) k) as [|Hgt]; [assumption|].
  assert (2 ^ k <= 2 ^ (Z.pos (digits2_pos p) - 1))
    by (apply Z.pow_le_mono_r; lia).
  lia.
Qed.

Lemma round_nearest_even_bounds (m : Z) (l : location) :
  0 <= m -> 0 <= round_nearest_even m l <= m + 1.
Proof.
  intros H. unfold round_nearest_even.
  destruct l as [|[| |]]; try destruct (Z.even m); lia.
Qed.

Lemma shr_m_of_loc m l : shr_m (shr_record_of_loc m l) = m.
Proof. destruct l as [|[| |]]; reflexivity. Qed.

Lemma binary_round_aux_finite (mz : positive) (ez : Z) :
  Z.pos mz < 2 ^ 64 -> -1074 <= ez <= 0 ->
  float64_finite_nonneg
    (binary_round_aux 53 1024 false (Z.pos mz) ez loc_Exact) = true.
Proof.
  intros Hm He. unfold binary_round_aux, shr_fexp.
  set (n1 := fexp 53 1024 (Zdigits2 (Z.pos mz) + ez) - ez).
  pose proof (shr_bounds (shr_record_of_loc (Z.pos mz) loc_Exact) ez n1) as B1.
  destruct (shr (shr_record_of_loc (Z.pos mz) loc_Exact) ez n1)
    as [mrs' e'] eqn:E1.
  simpl in B1. specialize (B1 ltac:(lia)). destruct B1 as [Bm1 Be1].
  pose proof (round_nearest_even_bounds (shr_m mrs')
                (loc_of_shr_record mrs') (proj1 Bm1)) as Br.
  set (m1 := round_nearest_even (shr_m mrs') (loc_of_shr_record mrs')) in *.
  set (n2 := fexp 53 1024 (Zdigits2 m1 + e') - e').
  pose proof (shr_bounds (shr_record_of_loc m1 loc_Exact) e' n2) as B2.
  destruct (shr (shr_record_of_loc m1 loc_Exact) e' n2)
    as [mrs'' e''] eqn:E2.
  simpl in B2. specialize (B2 (proj1 Br)). destruct B2 as [Bm2 Be2].
  assert (Hd0 : Zdigits2 (Z.pos mz) <= 64)
    by (apply Zdigits2_bound; lia).
  assert (Hd0' : 0 <= Zdigits2 (Z.pos mz)) by (simpl; lia).
  assert (Hd1 : Zdigits2 m1 <= 65).
  { apply Zdigits2_bound; [lia|]. split; [lia|].
    change (2 ^ 65) with (2 * 2 ^ 64). lia. }
  assert (Hd1' : 0 <= Zdigits2 m1).
  { destruct m1; simpl; lia. }
  assert (Hn1 : e' <= 12).
  { unfold n1, fexp, emin in Be1. lia. }
  assert (Hn2 : e'' <= 971).
  { unfold n2, fexp, emin in Be2. lia. }
  destruct (shr_m mrs'') as [|p|p] eqn:Em; [reflexivity| |lia].
  destruct (Z.leb_spec e'' (1024 - 53)) as [Hle|Hgt]; [|lia].
  simpl. apply Z.leb_le. lia.
Qed.

Lemma float64_of_uint64_finite (x : uint64) :
  uint64_ok x -> float64_finite_nonneg (float64_of_uint64 x) = true.
Proof.
  intros [H0 H64]. destruct x as [|m|m]; [reflexivity| |lia].
  unfold float64_of_uint64, binary_normalize, binary_round.
  pose proof (digits2_pos_bounds m) as Hd.
  assert (Hd64 : Z.pos (digits2_pos m) <= 64).
  { apply (Zdigits2_bound (Z.pos m)); lia. }
  unfold shl_align.
  assert (Hfexp : fexp 53 1024 (Z.pos (digits2_pos m) + 0)
                  = Z.pos (digits2_pos m) - 53).
  { unfold fexp, emin. lia. }
  rewrite Hfexp.
  destruct (Z.pos (digits2_pos m) - 53 - 0) as [|k|k] eqn:Hk.
  - apply binary_round_aux_finite; lia.
  - apply binary_round_aux_finite; lia.
  - apply binary_round_aux_finite; [|lia].
    rewrite iter_xO_value.
    assert (Z.pos m * 2 ^ Z.pos k < 2 ^ Z.pos (digits2_pos m) * 2 ^ Z.pos k)
      by (apply Z.mul_lt_mono_pos_r; lia).
    rewrite <- Z.pow_add_r in H by lia.
    replace (Z.pos (digits2_pos m) + Z.pos k) with 53 in H by lia.
    assert (2 ^ 53 < 2 ^ 64) by (apply Z.pow_lt_mono_r; lia). lia.
Qed.

(** *** The conversion to float64 rounds to 53 bits, in order *)

Lemma shr_1_shifted (m0 k : Z) (mrs : shr_record) :
  0 <= k -> shifted m0 k mrs -> shifted m0 (k + 1) (shr_1 mrs).
Proof.
  intros Hk (Hm & rem & E & Hrem & Hcls).
  assert (Hp : 2 ^ (k + 1) = 2 * 2 ^ k) by (rewrite Z.pow_add_r; lia).
  assert (Hpos : 0 < 2 ^ k) by (apply Z.pow_pos_nonneg; lia).
  destruct mrs as [m r s]. cbn [shr_m shr_r shr_s] in *.
  destruct m as [|[p|p|]|p]; [| | | |lia];
    unfold shifted; cbn [shr_1 shr_m shr_r shr_s].
  - split; [lia|]. exists rem. rewrite Hp.
    destruct r, s; cbn [orb]; lia.
  - split; [lia|]. exists (2 ^ k + rem). rewrite Hp.
    split; [rewrite E, Pos2Z.inj_xI; lia|].
    destruct r, s; cbn [orb]; lia.
  - split; [lia|]. exists rem. rewrite Hp.
    split; [rewrite E, Pos2Z.inj_xO; lia|].
    destruct r, s; cbn [orb]; lia.
  - split; [lia|]. exists (2 ^ k + rem). rewrite Hp.
    split; [rewrite E; lia|].
    destruct r, s; cbn [orb]; lia.
Qed.

Lemma iter_shr_1_shifted (p : positive) (m0 k : Z) (mrs : shr_record) :
  0 <= k -> shifted m0 k mrs ->
  shifted m0 (k + Z.pos p) (SpecFloat.iter_pos shr_1 p mrs).
Proof.
  revert k mrs. induction p as [p IH|p IH|]; intros k mrs Hk H; simpl.
  - replace (k + Z.pos p~1) with (k + 1 + Z.pos p + Z.pos p) by lia.
    apply IH; [lia|]. apply IH; [lia|]. apply shr_1_shifted; assumption.
  - replace (k + Z.pos p~0) with (k + Z.pos p + Z.pos p) by lia.
    apply IH; [lia|]. apply IH; assumption.
  - apply shr_1_shifted; assumption.
Qed.

Lemma Zdigits2_eq (z k : Z) :
  0 < k -> 2 ^ (k - 1) <= z < 2 ^ k -> Zdigits2 z = k.
Proof.
  intros Hk Hz.
  assert (0 < 2 ^ (k - 1)) by (apply Z.pow_pos_nonneg; lia).
  destruct z as [|p|p]; [lia| |lia]. simpl.
  pose proof (digits2_pos_bounds p) as Hd.
  destruct (Z.lt_trichotomy (Z.pos (digits2_pos p)) k) as [Hlt|[E|Hgt]];
    [|exact E|].
  - assert (2 ^ Z.pos (digits2_pos p) <= 2 ^ (k - 1))
      by (apply Z.pow_le_mono_r; lia).
    lia.
  - assert (2 ^ k <= 2 ^ (Z.pos (digits2_pos p) - 1))
      by (apply Z.pow_le_mono_r; lia).
    lia.
Qed.

Lemma round_of_shifted (q : Z) (r s : bool) (P rem : Z) :
  0 <= rem < P ->
  match r, s with
  | false, false => rem = 0
  | false, true => 0 < 2 * rem < P
  | true, false => 2 * rem = P
  | true, true => P < 2 * rem
  end ->
  round_nearest_even q
    (loc_of_shr_record {| shr_m := q; shr_r := r; shr_s := s |})
  = if (P <? 2 * rem) || ((2 * rem =? P) && Z.odd q) then q + 1 else q.
Proof.
  intros Hrem Hcls. rewrite <- Z.negb_even.
  destruct r, s; cbn [loc_of_shr_record round_nearest_even].
  - destruct (Z.ltb_spec P (2 * rem)); [reflexivity|lia].
  - destruct (Z.ltb_spec P (2 * rem)); [lia|].
    destruct (Z.eqb_spec (2 * rem) P); [|lia].
    destruct (Z.even q); reflexivity.
  - destruct (Z.ltb_spec P (2 * rem)); [lia|].
    destruct (Z.eqb_spec (2 * rem) P); [lia|reflexivity].
  - destruct (Z.ltb_spec P (2 * rem)); [lia|].
    destruct (Z.eqb_spec (2 * rem) P); [lia|reflexivity].
Qed.

Lemma binary_round_aux_large (m k : positive) :
  Zdigits2 (Z.pos m) = 53 + Z.pos k -> Z.pos k <= 11 ->
  float64_integer (binary_round_aux 53 1024 false (Z.pos m) 0 loc_Exact)
  = Some (round53 (Z.pos m)).
Proof.
  intros Hd Hk.
  assert (Hn : Z.max 0 (Zdigits2 (Z.pos m) - 53) = Z.pos k) by lia.
  unfold round53. rewrite Hn.
  unfold binary_round_aux, shr_fexp.
  assert (Hshift1 : fexp 53 1024 (Zdigits2 (Z.pos m) + 0) - 0 = Z.pos k).
  { unfold fexp, emin. lia. }
  rewrite Hshift1. cbn [shr shr_record_of_loc].
  pose proof (iter_shr_1_shifted k (Z.pos m) 0
                {| shr_m := Z.pos m; shr_r := false; shr_s := false |})
    as Hinv.
  assert (Hstart : shifted (Z.pos m) 0
                     {| shr_m := Z.pos m; shr_r := false; shr_s := false |}).
  { split; [simpl; lia|]. exists 0. simpl. lia. }
  specialize (Hinv ltac:(lia) Hstart). clear Hstart.
  remember (SpecFloat.iter_pos shr_1 k
              {| shr_m := Z.pos m; shr_r := false; shr_s := false |})
    as mrs eqn:Emrs. clear Emrs.
  destruct mrs as [q r s]. destruct Hinv as (Hq & rem & E & Hrem & Hcls).
  cbn [shr_m shr_r shr_s] in *. rewrite Z.add_0_l in *.
  set (P := 2 ^ Z.pos k) in *.
  assert (HP : 0 < P) by (apply Z.pow_pos_nonneg; lia).
  assert (Eq : Z.pos m / P = q).
  { symmetry. apply (Z.div_unique_pos _ _ q rem); lia. }
  assert (Erem : Z.pos m mod P = rem).
  { symmetry. apply (Z.mod_unique_pos _ _ q rem); lia. }
  rewrite Eq, Erem.
  rewrite (round_of_shifted q r s P rem Hrem Hcls).
  set (m1 := if (P <? 2 * rem) || ((2 * rem =? P) && Z.odd q)
             then q + 1 else q).
  pose proof (digits2_pos_bounds m) as Hb. cbn [Zdigits2] in Hd.
  assert (Hpow : 2 ^ Z.pos (digits2_pos m) = 2 ^ 53 * P).
  { unfold P. rewrite <- Z.pow_add_r by lia. f_equal. lia. }
  assert (Hpow' : 2 ^ (Z.pos (digits2_pos m) - 1) = 2 ^ 52 * P).
  { unfold P. rewrite <- Z.pow_add_r by lia. f_equal. lia. }
  assert (Hqb : 2 ^ 52 <= q < 2 ^ 53) by nia.
  assert (Hm1 : 2 ^ 52 <= m1 <= 2 ^ 53).
  { unfold m1. destruct ((P <? 2 * rem) || ((2 * rem =? P) && Z.odd q)); lia. }
  clearbody m1.
  destruct (Z.eq_dec m1 (2 ^ 53)) as [->|Hne].
  - assert (Hshift2 : fexp 53 1024 (Zdigits2 (2 ^ 53) + Z.pos k) - Z.pos k
                      = 1).
    { change (Zdigits2 (2 ^ 53)) with 54. unfold fexp, emin. lia. }
    rewrite Hshift2. change (2 ^ 53) with 9007199254740992.
    cbn [shr SpecFloat.iter_pos shr_1 shr_m].
    destruct (Z.leb_spec (Z.pos k + 1) (1024 - 53)); [|lia].
    cbn [float64_integer]. destruct (Z.leb_spec 0 (Z.pos k + 1)); [|lia].
    f_equal. rewrite Z.pow_add_r by lia. fold P. lia.
  - assert (Hd1 : Zdigits2 m1 = 53) by (apply Zdigits2_eq; lia).
    assert (Hshift2 : fexp 53 1024 (Zdigits2 m1 + Z.pos k) - Z.pos k = 0).
    { rewrite Hd1. unfold fexp, emin. lia. }
    rewrite Hshift2. cbn [shr shr_m].
    destruct m1 as [|p1|p1]; [lia| |lia].
    destruct (Z.leb_spec (Z.pos k) (1024 - 53)); [|lia].
    cbn [float64_integer]. destruct (Z.leb_spec 0 (Z.pos k)); [|lia].
    reflexivity.
Qed.

Lemma round53_small (x : Z) :
  0 <= x -> Zdigits2 x <= 53 -> round53 x = x.
Proof.
  intros H0 Hd. unfold round53.
  replace (Z.max 0 (Zdigits2 x - 53)) with 0 by lia.
  change (2 ^ 0) with 1. rewrite Z.div_1_r, Z.mod_1_r. simpl. lia.
Qed.

Lemma float64_of_uint64_value (x : uint64) :
  uint64_ok x -> float64_integer (float64_of_uint64 x) = Some (round53 x).
Proof.
  intros [H0 H64].
  destruct (Z_le_gt_dec (Zdigits2 x) 53) as [Hd|Hd].
  - rewrite round53_small by assumption.
    apply float64_of_uint64_exact. split; [assumption|].
    destruct x as [|m|m]; [lia| |lia].
    pose proof (digits2_pos_bounds m) as Hb. simpl in Hd.
    assert (2 ^ Z.pos (digits2_pos m) <= 2 ^ 53)
      by (apply Z.pow_le_mono_r; lia).
    lia.
  - destruct x as [|m|m]; [simpl in Hd; lia| |lia].
    assert (Hd64 : Zdigits2 (Z.pos m) <= 64)
      by (apply Zdigits2_bound; lia).
    unfold float64_of_uint64, binary_normalize, binary_round, shl_align.
    assert (Hfexp : fexp 53 1024 (Z.pos (digits2_pos m) + 0)
                    = Z.pos (digits2_pos m) - 53).
    { unfold fexp, emin. lia. }
    rewrite Hfexp. cbn [Zdigits2] in Hd, Hd64.
    destruct (Z.pos (digits2_pos m) - 53 - 0) as [|k|k] eqn:Hk;
      [lia| |lia].
    apply (binary_round_aux_large m k); cbn [Zdigits2]; lia.
Qed.

(** [round53 x] written with its quotient, remainder and rounding bit. *)
Lemma round53_parts (x : Z) :
  0 <= x ->
  exists n q rem u,
    n = Z.max 0 (Zdigits2 x - 53) /\
    x = q * 2 ^ n + rem /\ 0 <= rem < 2 ^ n /\ 0 <= q /\
    round53 x = (q + u) * 2 ^ n /\
    (u = 0 \/ u = 1) /\
    (u = 1 -> 2 ^ n <= 2 * rem) /\
    (u = 0 -> 2 * rem <= 2 ^ n) /\
    (u = 1 -> 2 * rem = 2 ^ n -> Z.odd q = true) /\
    (u = 0 -> 2 * rem = 2 ^ n -> Z.odd q = false).
Proof.
  intros H0. unfold round53.
  set (n := Z.max 0 (Zdigits2 x - 53)).
  assert (HP : 0 < 2 ^ n) by (apply Z.pow_pos_nonneg; lia).
  pose proof (Z.div_mod x (2 ^ n) ltac:(lia)) as E.
  pose proof (Z.mod_pos_bound x (2 ^ n) HP) as Hrem.
  assert (Hq : 0 <= x / 2 ^ n) by (apply Z.div_pos; lia).
  exists n, (x / 2 ^ n), (x mod 2 ^ n).
  destruct (Z.ltb_spec (2 ^ n) (2 * (x mod 2 ^ n))) as [Hlt|Hge];
    cbn [orb].
  - exists 1. repeat split; try lia.
  - destruct (Z.eqb_spec (2 * (x mod 2 ^ n)) (2 ^ n)) as [Heq|Hne];
      cbn [andb].
    + destruct (Z.odd (x / 2 ^ n)) eqn:Hodd.
      * exists 1. repeat split; try lia.
      * exists 0. repeat split; try lia;
          try (rewrite Z.add_0_r; reflexivity); intros; assumption.
    + exists 0. repeat split; try lia;
        try (rewrite Z.add_0_r; reflexivity).
Qed.

Lemma Zdigits2_mono (x y : Z) : 0 <= x <= y -> Zdigits2 x <= Zdigits2 y.
Proof.
  intros H. destruct x as [|p|p]; [destruct y; simpl; lia| |lia].
  destruct y as [|q|q]; [lia| |lia]. simpl.
  pose proof (digits2_pos_bounds p) as Hp.
  pose proof (digits2_pos_bounds q) as Hq.
  destruct (Z_le_gt_dec (Z.pos (digits2_pos p)) (Z.pos (digits2_pos q)))
    as [|Hgt]; [assumption|].
  assert (2 ^ Z.pos (digits2_pos q) <= 2 ^ (Z.pos (digits2_pos p) - 1))
    by (apply Z.pow_le_mono_r; lia).
  lia.
Qed.

Lemma round53_quotient (x : Z) :
  0 <= x ->
  let n := Z.max 0 (Zdigits2 x - 53) in
  x / 2 ^ n < 2 ^ 53 /\ (0 < n -> 2 ^ 52 <= x / 2 ^ n).
Proof.
  intros H0 n.
  assert (HP : 0 < 2 ^ n) by (apply Z.pow_pos_nonneg; lia).
  destruct x as [|m|m]; [|clear H0|lia].
  - rewrite Z.div_0_l by lia. subst n. simpl. lia.
  - pose proof (digits2_pos_bounds m) as Hb.
    change (Zdigits2 (Z.pos m)) with (Z.pos (digits2_pos m)) in n.
    destruct (Z_le_gt_dec (Z.pos (digits2_pos m)) 53) as [Hd|Hd].
    + assert (En : n = 0) by lia. rewrite En. rewrite Z.div_1_r.
      split; [|lia].
      assert (2 ^ Z.pos (digits2_pos m) <= 2 ^ 53)
        by (apply Z.pow_le_mono_r; lia).
      lia.
    + assert (En : Z.pos (digits2_pos m) = 53 + n) by lia.
      assert (Hpow : 2 ^ Z.pos (digits2_pos m) = 2 ^ 53 * 2 ^ n).
      { rewrite En. apply Z.pow_add_r; lia. }
      assert (Hpow' : 2 ^ (Z.pos (digits2_pos m) - 1) = 2 ^ 52 * 2 ^ n).
      { replace (Z.pos (digits2_pos m) - 1) with (52 + n) by lia.
        apply Z.pow_add_r; lia. }
      split.
      * apply Z.div_lt_upper_bound; lia.
      * intros _. apply Z.div_le_lower_bound; lia.
Qed.

(** Rounding to 53 bits keeps the order. *)
Lemma round53_mono (x y : Z) : 0 <= x <= y -> round53 x <= round53 y.
Proof.
  intros Hxy.
  pose proof (Zdigits2_mono x y Hxy) as Hd.
  destruct (round53_parts x ltac:(lia))
    as (nx & qx & rx & ux & Enx & Ex & Hrx & Hqx & Rx & Hux & Ux1 & Ux0
        & Ox1 & Ox0).
  destruct (round53_parts y ltac:(lia))
    as (ny & qy & ry & uy & Eny & Ey & Hry & Hqy & Ry & Huy & Uy1 & Uy0
        & Oy1 & Oy0).
  pose proof (round53_quotient x ltac:(lia)) as [Qx _].
  pose proof (round53_quotient y ltac:(lia)) as [_ Qy].
  cbv zeta in Qx, Qy. rewrite <- Enx in Qx. rewrite <- Eny in Qy.
  assert (HPx : 0 < 2 ^ nx) by (apply Z.pow_pos_nonneg; lia).
  assert (HPy : 0 < 2 ^ ny) by (apply Z.pow_pos_nonneg; lia).
  assert (Dx : x / 2 ^ nx = qx).
  { symmetry. apply (Z.div_unique_pos _ _ qx rx); lia. }
  assert (Dy : y / 2 ^ ny = qy).
  { symmetry. apply (Z.div_unique_pos _ _ qy ry); lia. }
  rewrite Dx in Qx. rewrite Dy in Qy.
  rewrite Rx, Ry.
  destruct (Z.eq_dec nx ny) as [En|Hn].
  - rewrite <- En in *. set (P := 2 ^ nx) in *.
    apply Z.mul_le_mono_nonneg_r; [lia|].
    destruct (Z.lt_trichotomy qx qy) as [Hlt|[Heq|Hgt]]; [lia| |nia].
    subst qy. assert (rx <= ry) by nia.
    destruct Hux as [-> | ->]; [lia|].
    destruct Huy as [-> | ->]; [|lia].
    specialize (Ux1 eq_refl). specialize (Uy0 eq_refl).
    assert (E1 : 2 * rx = P) by lia. assert (E2 : 2 * ry = P) by lia.
    pose proof (Ox1 eq_refl E1) as O1. pose proof (Oy0 eq_refl E2) as O2.
    congruence.
  - assert (Hlt : nx + 1 <= ny) by lia.
    specialize (Qy ltac:(lia)).
    assert (Hpow : 2 * 2 ^ nx <= 2 ^ ny).
    { replace (2 * 2 ^ nx) with (2 ^ (nx + 1))
        by (rewrite Z.pow_add_r; lia).
      apply Z.pow_le_mono_r; lia. }
    change (2 ^ 53) with (2 * 2 ^ 52) in Qx.
    assert (H1 : (qx + ux) * 2 ^ nx <= 2 ^ 52 * (2 * 2 ^ nx)) by nia.
    assert (H2 : 2 ^ 52 * 2 ^ ny <= (qy + uy) * 2 ^ ny) by nia.
    nia.
Qed.

(** Rounding to 53 bits moves a uint64 by at most 1024. *)
Lemma round53_error (x : Z) :
  0 <= x < 2 ^ 64 -> Z.abs (round53 x - x) <= 1024.
Proof.
  intros Hx.
  destruct (round53_parts x ltac:(lia))
    as (n & q & r & u & En & E & Hr & Hq & R & Hu & U1 & U0 & _ & _).
  assert (Hd : Zdigits2 x <= 64) by (apply Zdigits2_bound; lia).
  assert (Hn : 0 <= n <= 11) by lia.
  assert (HP : 2 ^ n <= 2 ^ 11) by (apply Z.pow_le_mono_r; lia).
  change (2 ^ 11) with 2048 in HP.
  rewrite R. destruct Hu as [-> | ->].
  - specialize (U0 eq_refl). lia.
  - specialize (U1 eq_refl). lia.
Qed.

Lemma float64_of_uint64_mono (x y : uint64) :
  uint64_ok x -> uint64_ok y -> x <= y ->
  exists a b,
    float64_integer (float64_of_uint64 x) = Some a /\
    float64_integer (float64_of_uint64 y) = Some b /\
    a <= b.
Proof.
  intros Hx Hy Hxy. exists (round53 x), (round53 y).
  rewrite !float64_of_uint64_value by assumption.
  split; [reflexivity|]. split; [reflexivity|].
  apply round53_mono. unfold uint64_ok in *. lia.
Qed.

Ltac split_index i n :=
  lazymatch n with
  | O => idtac
  | S ?n' => destruct i as [|i]; [|split_index i n']
  end.

Lemma lookup_heap_plus (h l : list Desc) (i : nat) :
  (h ++ l) !! (length h + i)%nat = l !! i.
Proof. rewrite Nat.add_comm. apply lookup_heap_offset. Qed.

Ltac run_helper :=
  unfold run_samples, run_metrics, bind, NewDesc, MustNewConstMetric,
    NewConstMetric, send, ret, panic, bind; simpl;
  repeat (rewrite list_lookup_middle by reflexivity; simpl);
  repeat rewrite <- app_assoc; simpl;
  repeat (rewrite length_app; simpl);
  rewrite ?drop_app_length;
  unfold sample_of; cbn [mapM desc];
  repeat first [ rewrite list_lookup_middle by reflexivity
               | rewrite lookup_heap_plus ];
  cbn.

Lemma float64_of_uint64_inj (x y : uint64) :
  0 <= x <= 2 ^ 53 -> 0 <= y <= 2 ^ 53 ->
  float64_of_uint64 x = float64_of_uint64 y -> x = y.
Proof.
  intros Hx Hy E.
  pose proof (float64_of_uint64_exact x Hx) as Ex.
  rewrite E, (float64_of_uint64_exact y Hy) in Ex. congruence.
Qed.

Section Further.

Variable namespace : string.

Local Abbreviation fq := (BuildFQName namespace nfsdSubsystem).

(** X1.  In every world [Update] only appends: the statistics source is
    left as it was, the descriptors and the metrics that were there stay
    where they were, and what is added is either nothing at all, with an
    error returned, or 11 descriptors and 12 metrics, with nil returned. *)
Theorem Update_only_appends c w :
  exists ds ms,
    cycle_world namespace c w
    = {| source := source w; heap := heap w ++ ds; sent := sent w ++ ms |} /\
    ((ds = [] /\ ms = [] /\
      exists e, cycle_result namespace c w = Ret (Some e)) \/
     (length ds = 11%nat /\ length ms = 12%nat /\
      cycle_result namespace c w = Ret None)).
Proof.
  destruct (source w (fs c)) as [stats|err] eqn:Hsrc.
  - exists (cycle_descs namespace),
      (map (rebase (length (heap w))) (relative_metrics stats)).
    unfold cycle_world, cycle_result.
    rewrite (Update_run namespace c w stats Hsrc).
    split; [reflexivity|]. right. repeat split.
  - exists [], []. unfold cycle_world, cycle_result.
    rewrite (Update_fail namespace c w err Hsrc). simpl.
    split; [destruct w; simpl; rewrite !app_nil_r; reflexivity|].
    left. repeat split. eexists. reflexivity.
Qed.


(** X3.  Within one cycle no two samples have the same name and the same
    labels: the scrape never contains a duplicate series. *)
Theorem cycle_series_unique c w stats :
  source w (fs c) = inl stats ->
  exists ss,
    cycle_samples namespace c w = Some ss /\
    NoDup (map (fun s => (sample_name s, sample_labels s)) ss).
Proof.
  intros Hsrc. rewrite (cycle_samples_run namespace _ _ _ Hsrc).
  eexists. split; [reflexivity|].
  change (NoDup
            (map (fun '(suffix, labels) =>
                    (fq suffix, labels : list (string * string)))
               [ ("reply_cache_hits_total", []);
                 ("reply_cache_misses_total", []);
                 ("reply_cache_nocache_total", []);
                 ("file_handles_stale_total", []);
                 ("disk_bytes_read_total", []);
                 ("disk_bytes_written_total", []);
                 ("server_threads", []);
                 ("read_ahead_cache_size_blocks", []);
                 ("read_ahead_cache_not_found_total", []);
                 ("packets_total", [("proto", "udp")]);
                 ("packets_total", [("proto", "tcp")]);
                 ("connections_total", []) ])).
  apply NoDup_fmap_2_strong.
  - intros [a l] [a' l'] _ _ H. injection H as H1 H2.
    apply BuildFQName_inj in H1. congruence.
  - apply (bool_decide_unpack _). vm_compute. exact I.
Qed.

(** X4.  A sample is a counter exactly when its name ends in _total, and
    otherwise it is a gauge: the two gauges are server_threads and
    read_ahead_cache_size_blocks, and no sample is untyped. *)
Theorem counter_iff_total_suffix c w stats :
  source w (fs c) = inl stats ->
  exists ss,
    cycle_samples namespace c w = Some ss /\
    Forall (fun s =>
              (sample_kind s = CounterValue <->
               has_suffix "_total" (sample_name s) = true) /\
              (sample_kind s = GaugeValue <->
               has_suffix "_total" (sample_name s) = false))
           ss.
Proof.
  intros Hsrc. rewrite (cycle_samples_run namespace _ _ _ Hsrc).
  eexists. split; [reflexivity|].
  repeat (apply Forall_cons; split;
          [cbn [sample_kind sample_name fqName valType];
           rewrite has_suffix_BuildFQName by (simpl; lia);
           vm_compute; repeat split; intros; congruence|]).
  apply Forall_nil_2.
Qed.

(** X5.  Within one cycle two metrics point to the same descriptor object
    exactly when their samples have the same name: one descriptor per
    metric name, never two descriptors for one name nor one descriptor for
    two names. *)
Theorem same_descriptor_iff_same_name c w stats :
  source w (fs c) = inl stats ->
  exists ss,
    cycle_samples namespace c w = Some ss /\
    forall i j mi mj si sj,
      cycle_metrics namespace c w !! i = Some mi ->
      cycle_metrics namespace c w !! j = Some mj ->
      ss !! i = Some si ->
      ss !! j = Some sj ->
      (desc mi = desc mj <-> sample_name si = sample_name sj).
Proof.
  intros Hsrc.
  rewrite (cycle_samples_run namespace _ _ _ Hsrc),
    (cycle_metrics_run namespace _ _ _ Hsrc).
  eexists. split; [reflexivity|].
  unfold relative_metrics. cbn [map].
  intros i j mi mj si sj Hmi Hmj Hsi Hsj.
  split_index i 12%nat; cbn in Hmi; try discriminate Hmi;
    split_index j 12%nat; cbn in Hmj; try discriminate Hmj;
    cbn in Hsi, Hsj;
    injection Hmi as <-; injection Hmj as <-;
    injection Hsi as <-; injection Hsj as <-;
    cbn [desc rebase sample_name fqName];
    (split; intros H;
     [ first [reflexivity | exfalso; lia]
     | first [reflexivity
             | apply BuildFQName_inj in H; discriminate H] ]).
Qed.

(** X6.  Two consecutive cycles on an unchanged statistics source: the
    channel carries the metrics of the first cycle followed by those of the
    second, and the second cycle allocates its own 11 descriptors.  Each
    metric of the second cycle is the metric of the first at the same
    position, except that it points to a descriptor object 11 addresses
    further, which holds the same name, help text and labels. *)
Theorem consecutive_cycles_rebuild_descriptors c w stats :
  source w (fs c) = inl stats ->
  let w1 := cycle_world namespace c w in
  let w2 := cycle_world namespace c w1 in
  sent w2
  = sent w ++ cycle_metrics namespace c w ++ cycle_metrics namespace c w1 /\
  length (heap w2) = (length (heap w) + 22)%nat /\
  Forall2 (fun m1 m2 =>
             desc m2 = (desc m1 + 11)%nat /\
             is_Some (heap w2 !! desc m1) /\
             heap w2 !! desc m1 = heap w2 !! desc m2 /\
             valType m1 = valType m2 /\
             val m1 = val m2 /\
             labelValues m1 = labelValues m2)
          (cycle_metrics namespace c w) (cycle_metrics namespace c w1).
Proof.
  intros Hsrc w1 w2.
  assert (Hsrc1 : source w1 (fs c) = inl stats).
  { unfold w1, cycle_world. rewrite (Update_run namespace c w stats Hsrc).
    exact Hsrc. }
  assert (Hheap1 : heap w1 = heap w ++ cycle_descs namespace)
    by exact (cycle_heap_run namespace c w stats Hsrc).
  assert (Hheap2 : heap w2 = heap w1 ++ cycle_descs namespace)
    by exact (cycle_heap_run namespace c w1 stats Hsrc1).
  split.
  { unfold w2. rewrite (cycle_sent_run namespace c w1 stats Hsrc1).
    unfold w1 at 1. rewrite (cycle_sent_run namespace c w stats Hsrc).
    rewrite <- app_assoc. reflexivity. }
  split.
  { rewrite Hheap2, Hheap1, !length_app. simpl. lia. }
  rewrite (cycle_metrics_run namespace c w stats Hsrc),
    (cycle_metrics_run namespace c w1 stats Hsrc1).
  apply Forall2_fmap, Forall_Forall2_diag.
  unfold relative_metrics.
  repeat (apply Forall_cons; split;
          [cbn [rebase desc valType val labelValues];
           split; [rewrite Hheap1, length_app; simpl; lia|];
           rewrite Hheap2, lookup_heap_offset;
           rewrite Hheap1, <- app_assoc, lookup_heap_offset;
           cbn; split; [eexists; reflexivity|];
           repeat split|]).
  apply Forall_nil_2.
Qed.

(** X7.  The input/output helper on its own, in any world: it returns, and
    it delivers two label-free counters, disk_bytes_read_total with the
    Read field and then disk_bytes_written_total with the Write field. *)
Theorem updateNFSdInputOutputStats_samples c s w :
  fst (updateNFSdInputOutputStats namespace c s w) = Ret tt /\
  run_samples (updateNFSdInputOutputStats namespace c s) w
  = Some [ {| sample_name := fq "disk_bytes_read_total";
              sample_kind := CounterValue;
              sample_help := "NFSd bytes read";
              sample_labels := [];
              sample_value := float64_of_uint64 (nfs.InputOutput.Read s) |};
           {| sample_name := fq "disk_bytes_written_total";
              sample_kind := CounterValue;
              sample_help := "NFSd bytes written";
              sample_labels := [];
              sample_value :=
                float64_of_uint64 (nfs.InputOutput.Write s) |} ].
Proof.
  split.
  - unfold updateNFSdInputOutputStats, bind, NewDesc, MustNewConstMetric,
      NewConstMetric, send, ret, panic, bind. simpl.
    repeat (rewrite list_lookup_middle by reflexivity; simpl).
    reflexivity.
  - unfold updateNFSdInputOutputStats. run_helper. reflexivity.
Qed.

(** X8.  The six helpers do not depend on the world they run in nor on one
    another: what each delivers when run alone, from any world, is what it
    contributes to a cycle, and the samples of a cycle are these six groups
    in the order of the calls, of 3, 1, 2, 1, 2 and 3 samples. *)
Theorem cycle_is_the_six_groups c w stats w1 w2 w3 w4 w5 w6 :
  source w (fs c) = inl stats ->
  exists g1 g2 g3 g4 g5 g6,
    run_samples
      (updateNFSdReplyCacheStats namespace c
         (nfs.ServerRPCStats.ReplyCache stats)) w1 = Some g1 /\
    run_samples
      (updateNFSdFileHandlesStats namespace c
         (nfs.ServerRPCStats.FileHandles stats)) w2 = Some g2 /\
    run_samples
      (updateNFSdInputOutputStats namespace c
         (nfs.ServerRPCStats.InputOutput stats)) w3 = Some g3 /\
    run_samples
      (updateNFSdThreadsStats namespace c
         (nfs.ServerRPCStats.Threads stats)) w4 = Some g4 /\
    run_samples
      (updateNFSdReadAheadCacheStats namespace c
         (nfs.ServerRPCStats.ReadAheadCache stats)) w5 = Some g5 /\
    run_samples
      (updateNFSdNetworkStats namespace c
         (nfs.ServerRPCStats.Network stats)) w6 = Some g6 /\
    cycle_samples namespace c w = Some (g1 ++ g2 ++ g3 ++ g4 ++ g5 ++ g6) /\
    map length [g1; g2; g3; g4; g5; g6] = [3; 1; 2; 1; 2; 3]%nat.
Proof.
  intros Hsrc. rewrite (cycle_samples_run namespace _ _ _ Hsrc).
  do 6 eexists.
  split; [unfold updateNFSdReplyCacheStats; run_helper; reflexivity|].
  split; [unfold updateNFSdFileHandlesStats; run_helper; reflexivity|].
  split; [unfold updateNFSdInputOutputStats; run_helper; reflexivity|].
  split; [unfold updateNFSdThreadsStats; run_helper; reflexivity|].
  split; [unfold updateNFSdReadAheadCacheStats; run_helper; reflexivity|].
  split; [unfold updateNFSdNetworkStats; run_helper; reflexivity|].
  split; reflexivity.
Qed.

(** X9.  A change of an exposed field shows: when two snapshots give an
    exposed field two different values, both at most 2^53, the two cycles
    deliver different sample sequences. *)
Theorem exposed_field_change_shows c1 w1 c2 w2 s1 s2 f :
  source w1 (fs c1) = inl s1 ->
  source w2 (fs c2) = inl s2 ->
  bound_sample f <> None ->
  0 <= get f s1 <= 2 ^ 53 ->
  0 <= get f s2 <= 2 ^ 53 ->
  get f s1 <> get f s2 ->
  cycle_samples namespace c1 w1 <> cycle_samples namespace c2 w2.
Proof.
  intros Hsrc1 Hsrc2 Hbound H1 H2 Hne.
  rewrite (cycle_samples_run namespace _ _ _ Hsrc1),
    (cycle_samples_run namespace _ _ _ Hsrc2).
  intros E.
  apply (f_equal (fun o => map sample_value (default [] o))) in E.
  cbn in E.
  injection E as E1 E2 E3 E4 E5 E6 E7 E8 E9 E10 E11 E12.
  apply Hne.
  destruct f; try (exfalso; apply Hbound; reflexivity);
    apply float64_of_uint64_inj; assumption.
Qed.

(** X11.  When the fields of the snapshot are uint64 values, every sample
    value of the cycle is a finite binary64 number that is not negative:
    never NaN, never an infinity, never below zero. *)
Theorem sample_values_are_finite c w stats :
  source w (fs c) = inl stats ->
  stats_ok stats ->
  exists ss,
    cycle_samples namespace c w = Some ss /\
    Forall (fun s => float64_finite_nonneg (sample_value s) = true) ss.
Proof.
  intros Hsrc Hok. rewrite (cycle_samples_run namespace _ _ _ Hsrc).
  eexists. split; [reflexivity|].
  repeat (apply Forall_cons; split;
          [apply float64_of_uint64_finite, Hok|]).
  apply Forall_nil_2.
Qed.

Local Ltac field_of_sample k :=
  first [ exists ReplyCache_Hits; solve [k]
        | exists ReplyCache_Misses; solve [k]
        | exists ReplyCache_NoCache; solve [k]
        | exists FileHandles_Stale; solve [k]
        | exists InputOutput_Read; solve [k]
        | exists InputOutput_Write; solve [k]
        | exists Threads_Threads; solve [k]
        | exists ReadAheadCache_CacheSize; solve [k]
        | exists ReadAheadCache_NotFound; solve [k]
        | exists Network_UDPCount; solve [k]
        | exists Network_TCPCount; solve [k]
        | exists Network_TCPConnect; solve [k] ].

(** X12.  Sample values keep the order of the counters: position by
    position, two cycles deliver the sample of the same field, both values
    are integers, and when the field of the second snapshot is not below
    that of the first, neither is its sample value.  A counter that only
    grows never shows as a sample that shrinks. *)
Theorem sample_values_keep_order c1 w1 c2 w2 s1 s2 :
  source w1 (fs c1) = inl s1 ->
  source w2 (fs c2) = inl s2 ->
  stats_ok s1 ->
  stats_ok s2 ->
  exists ss1 ss2,
    cycle_samples namespace c1 w1 = Some ss1 /\
    cycle_samples namespace c2 w2 = Some ss2 /\
    Forall2 (fun x y =>
               exists g,
                 is_bound_to namespace g x /\
                 is_bound_to namespace g y /\
                 float64_integer (sample_value x) = Some (round53 (get g s1)) /\
                 float64_integer (sample_value y) = Some (round53 (get g s2)) /\
                 (get g s1 <= get g s2 ->
                  round53 (get g s1) <= round53 (get g s2)))
            ss1 ss2.
Proof.
  intros Hsrc1 Hsrc2 Hok1 Hok2.
  rewrite (cycle_samples_run namespace _ _ _ Hsrc1),
    (cycle_samples_run namespace _ _ _ Hsrc2).
  eexists. eexists. split; [reflexivity|]. split; [reflexivity|].
  repeat (apply Forall2_cons; split;
          [field_of_sample
             ltac:(split; [eexists; split; reflexivity|];
                   split; [eexists; split; reflexivity|];
                   split; [apply float64_of_uint64_value, Hok1|];
                   split; [apply float64_of_uint64_value, Hok2|];
                   intros Hle; apply round53_mono; split;
                   [apply Hok1|exact Hle])|]).
  apply Forall2_nil_2.
Qed.

(** X13.  Every sample value of a cycle is the integer nearest to its
    field among those of 53 significant bits, and lies within 1024 of the
    field, when the snapshot's fields are uint64 values. *)
Theorem sample_values_are_near c w stats :
  source w (fs c) = inl stats ->
  stats_ok stats ->
  exists ss,
    cycle_samples namespace c w = Some ss /\
    Forall (fun s =>
              exists g,
                is_bound_to namespace g s /\
                float64_integer (sample_value s)
                = Some (round53 (get g stats)) /\
                Z.abs (round53 (get g stats) - get g stats) <= 1024)
           ss.
Proof.
  intros Hsrc Hok. rewrite (cycle_samples_run namespace _ _ _ Hsrc).
  eexists. split; [reflexivity|].
  repeat (apply Forall_cons; split;
          [field_of_sample
             ltac:(split; [eexists; split; reflexivity|];
                   split; [apply float64_of_uint64_value, Hok|];
                   apply round53_error, Hok)|]).
  apply Forall_nil_2.
Qed.

End Further.

(** X10.  Construction and collection fail apart.  NewNFSdCollector returns
    a collector exactly when NewFS opens the mount point, and the collector
    then holds the handle NewFS gave; otherwise it returns the message
    "failed to open procfs: " followed by the cause.  No error of [Update]
    equals an error of NewNFSdCollector, whatever the two causes. *)
Theorem NewNFSdCollector_result namespace procPath NewFS :
  match NewFS procPath with
  | inl handle =>
      NewNFSdCollector procPath NewFS = inl {| fs := handle |}
  | inr cause =>
      NewNFSdCollector procPath NewFS
      = inr ("failed to open procfs: " +:+ cause)
  end /\
  forall e c w,
    NewNFSdCollector procPath NewFS = inr e ->
    cycle_result namespace c w <> Ret (Some e).
Proof.
  split.
  - unfold NewNFSdCollector. destruct (NewFS procPath); reflexivity.
  - intros e c w Hnew Hupd. unfold NewNFSdCollector in Hnew.
    destruct (NewFS procPath) as [handle|cause]; [discriminate Hnew|].
    injection Hnew as <-. unfold cycle_result in Hupd.
    destruct (source w (fs c)) as [stats|err] eqn:Hsrc.
    + rewrite (Update_run namespace c w stats Hsrc) in Hupd.
      discriminate Hupd.
    + rewrite (Update_fail namespace c w err Hsrc) in Hupd.
      simpl in Hupd. discriminate Hupd.
Qed.

(** ** The further properties on concrete inputs *)

Lemma example_stats_ok : stats_ok example_stats.
Proof. intros f. unfold uint64_ok. destruct f; simpl; lia. Defined.

Lemma with_hits_stats_ok : stats_ok (with_hits 42 example_stats).
Proof. intros f. unfold uint64_ok. destruct f; simpl; lia. Defined.


Lemma cycle_series_unique_witness :
  source example_world (fs example_collector) = inl example_stats /\
  exists ss,
    cycle_samples "node" example_collector example_world = Some ss /\
    NoDup (map (fun s => (sample_name s, sample_labels s)) ss).
Proof.
  split; [reflexivity|].
  exact (cycle_series_unique "node" example_collector example_world
           example_stats eq_refl).
Defined.

Lemma counter_iff_total_suffix_witness :
  source example_world (fs example_collector) = inl example_stats /\
  exists ss,
    cycle_samples "node" example_collector example_world = Some ss /\
    Forall (fun s =>
              (sample_kind s = CounterValue <->
               has_suffix "_total" (sample_name s) = true) /\
              (sample_kind s = GaugeValue <->
               has_suffix "_total" (sample_name s) = false))
           ss.
Proof.
  split; [reflexivity|].
  exact (counter_iff_total_suffix "node" example_collector example_world
           example_stats eq_refl).
Defined.

Lemma same_descriptor_iff_same_name_witness :
  source (used_world example_stats) (fs example_collector)
  = inl example_stats /\
  exists ss,
    cycle_samples "node" example_collector (used_world example_stats)
    = Some ss /\
    forall i j mi mj si sj,
      cycle_metrics "node" example_collector (used_world example_stats) !! i
      = Some mi ->
      cycle_metrics "node" example_collector (used_world example_stats) !! j
      = Some mj ->
      ss !! i = Some si ->
      ss !! j = Some sj ->
      (desc mi = desc mj <-> sample_name si = sample_name sj).
Proof.
  split; [reflexivity|].
  exact (same_descriptor_iff_same_name "node" example_collector
           (used_world example_stats) example_stats eq_refl).
Defined.

Lemma consecutive_cycles_rebuild_descriptors_witness :
  source example_world (fs example_collector) = inl example_stats /\
  length
    (heap (cycle_world "node" example_collector
             (cycle_world "node" example_collector example_world)))
  = 22%nat /\
  length
    (sent (cycle_world "node" example_collector
             (cycle_world "node" example_collector example_world)))
  = 24%nat.
Proof.
  split; [reflexivity|].
  pose proof (consecutive_cycles_rebuild_descriptors "node"
                example_collector example_world example_stats eq_refl)
    as H.
  cbv zeta in H. destruct H as (Hsent & Hheap & _).
  split; [exact Hheap|]. rewrite Hsent. reflexivity.
Defined.

Lemma cycle_is_the_six_groups_witness :
  source example_world (fs example_collector) = inl example_stats /\
  exists g1 g2 g3 g4 g5 g6,
    run_samples
      (updateNFSdReplyCacheStats "node" example_collector
         (nfs.ServerRPCStats.ReplyCache example_stats)) broken_world
    = Some g1 /\
    run_samples
      (updateNFSdFileHandlesStats "node" example_collector
         (nfs.ServerRPCStats.FileHandles example_stats))
      (used_world example_stats)
    = Some g2 /\
    run_samples
      (updateNFSdInputOutputStats "node" example_collector
         (nfs.ServerRPCStats.InputOutput example_stats)) example_world
    = Some g3 /\
    run_samples
      (updateNFSdThreadsStats "node" example_collector
         (nfs.ServerRPCStats.Threads example_stats)) broken_world
    = Some g4 /\
    run_samples
      (updateNFSdReadAheadCacheStats "node" example_collector
         (nfs.ServerRPCStats.ReadAheadCache example_stats))
      (used_world example_stats)
    = Some g5 /\
    run_samples
      (updateNFSdNetworkStats "node" example_collector
         (nfs.ServerRPCStats.Network example_stats)) example_world
    = Some g6 /\
    cycle_samples "node" example_collector example_world
    = Some (g1 ++ g2 ++ g3 ++ g4 ++ g5 ++ g6) /\
    map length [g1; g2; g3; g4; g5; g6] = [3; 1; 2; 1; 2; 3]%nat.
Proof.
  split; [reflexivity|].
  exact (cycle_is_the_six_groups "node" example_collector example_world
           example_stats broken_world (used_world example_stats)
           example_world broken_world (used_world example_stats)
           example_world eq_refl).
Defined.

(** Threads.Threads going from 4 to 6 does show. *)
Lemma exposed_field_change_shows_witness :
  cycle_samples "node" example_collector
    (world_with (with_threads 4 example_stats))
  <> cycle_samples "node" example_collector
       (world_with (with_threads 6 example_stats)).
Proof.
  apply (exposed_field_change_shows "node"
           example_collector (world_with (with_threads 4 example_stats))
           example_collector (world_with (with_threads 6 example_stats))
           (with_threads 4 example_stats) (with_threads 6 example_stats)
           Threads_Threads eq_refl eq_refl).
  - discriminate.
  - simpl. lia.
  - simpl. lia.
  - simpl. lia.
Defined.

Lemma sample_values_are_finite_witness :
  source example_world (fs example_collector) = inl example_stats /\
  stats_ok example_stats /\
  exists ss,
    cycle_samples "node" example_collector example_world = Some ss /\
    Forall (fun s => float64_finite_nonneg (sample_value s) = true) ss.
Proof.
  split; [reflexivity|]. split; [exact example_stats_ok|].
  exact (sample_values_are_finite "node" example_collector example_world
           example_stats eq_refl example_stats_ok).
Defined.

(** ReplyCache.Hits growing from 10 to 42 between two cycles. *)
Lemma sample_values_keep_order_witness :
  exists ss1 ss2,
    cycle_samples "node" example_collector example_world = Some ss1 /\
    cycle_samples "node" example_collector
      (world_with (with_hits 42 example_stats)) = Some ss2 /\
    Forall2 (fun x y =>
               exists g,
                 is_bound_to "node" g x /\
                 is_bound_to "node" g y /\
                 float64_integer (sample_value x)
                 = Some (round53 (get g example_stats)) /\
                 float64_integer (sample_value y)
                 = Some (round53 (get g (with_hits 42 example_stats))) /\
                 (get g example_stats <= get g (with_hits 42 example_stats) ->
                  round53 (get g example_stats)
                  <= round53 (get g (with_hits 42 example_stats))))
            ss1 ss2.
Proof.
  exact (sample_values_keep_order "node"
           example_collector example_world
           example_collector (world_with (with_hits 42 example_stats))
           example_stats (with_hits 42 example_stats)
           eq_refl eq_refl example_stats_ok with_hits_stats_ok).
Defined.

Lemma sample_values_are_near_witness :
  source example_world (fs example_collector) = inl example_stats /\
  stats_ok example_stats /\
  exists ss,
    cycle_samples "node" example_collector example_world = Some ss /\
    Forall (fun s =>
              exists g,
                is_bound_to "node" g s /\
                float64_integer (sample_value s)
                = Some (round53 (get g example_stats)) /\
                Z.abs (round53 (get g example_stats) - get g example_stats)
                <= 1024)
           ss.
Proof.
  split; [reflexivity|]. split; [exact example_stats_ok|].
  exact (sample_values_are_near "node" example_collector example_world
           example_stats eq_refl example_stats_ok).
Defined.

(** Above 2^53 the sample value is the nearest 53-bit integer: the counter
    2^64 - 1 shows as 2^64, and 2^53 + 1 as 2^53. *)
Example round53_of_large_counters :
  round53 (2 ^ 64 - 1) = 2 ^ 64 /\ round53 (2 ^ 53 + 1) = 2 ^ 53 /\
  round53 (2 ^ 53 + 3) = 2 ^ 53 + 4.
Proof. vm_compute. repeat split. Qed.
